(** * verify_setup.py: the setup verification script of MetaGPT

    A shallow embedding of [src/verify_setup.py].  The script inspects its
    surroundings (interpreter attributes, the import system, external
    commands, the file system), prints a report and returns an exit code.

    The surroundings are a value [Env].  The import system answers a request
    for a module that is not loaded yet with the module, with an
    [ImportError], or with another exception raised while the module's code
    runs, which no [except ImportError] clause catches.  An external command
    completes, exceeds its timeout ([TimeoutExpired]) or is missing
    ([FileNotFoundError]).  The interpreter state the script can change is
    [sys.modules], the table of loaded modules; it is threaded through every
    function, together with the trace of what was printed and which commands
    were run.

    Two things are simpler here than in CPython.  An import enters the
    requested module in [sys.modules] and nothing else, where a real import
    also loads parent packages and dependencies: the properties C1 to C10
    and X1 to X18 below hold either way, they say that nothing is unloaded
    and that what is loaded is what the import system finds, never how
    much a run loads.  [Path.exists] answers for every path, where a real
    probe beneath a directory that cannot be searched raises
    [PermissionError] outside any [try].  The configuration checks probe a
    path beneath the home directory, where this can happen: the properties
    about them are stated for the runs in which they return. *)

From Stdlib Require Import ZArith String Ascii List Bool DecimalString Lia.
From stdpp Require Import gmap strings.
Import ListNotations.

Local Open Scope Z_scope.

(** ** Python values *)

Inductive exn : Type :=
| ImportError (msg : string)
| TimeoutExpired
| FileNotFoundError
| Exception (msg : string).

Inductive outcome (A : Type) : Type :=
| Return (a : A)
| Raise (e : exn).
Arguments Return {A} a.
Arguments Raise {A} e.

(** What the script does to the outside: a [print] call with its argument,
    a [subprocess.run] call with its command line and timeout. *)
Inductive event : Type :=
| Printed (line : string)
| Spawned (argv : list string) (timeout : Z).

(** [subprocess.CompletedProcess], the two attributes the script reads. *)
Record CompletedProcess : Type := { returncode : Z; stdout : string }.

Inductive run_outcome : Type :=
| Completed (p : CompletedProcess)
| RunTimeout
| RunNotFound.

(** What the import system has for a module that is not loaded: the
    module, an [ImportError], or an exception of another class raised by
    the module's own code (the [ValueError] of an extension built against
    another numpy, say). *)
Inductive import_outcome : Type :=
| Found
| NotFound (msg : string)
| Crashes (msg : string).

(** [metagpt.__version__]: absent, a value, or an attribute whose lookup or
    formatting raises. *)
Inductive attr_lookup : Type :=
| AttrAbsent
| AttrValue (v : string)
| AttrRaises (msg : string).

(** A [pathlib] path as its parts; an absolute path starts with the part
    ["/"]. *)
Definition Path : Type := list string.

Inductive fs_node : Type :=
| File (content : string)
| Dir.

Record Env : Type := {
  version_major : Z;
  version_minor : Z;
  version_micro : Z;
  has_real_prefix : bool;
  base_prefix : option string;
  prefix : string;
  executable : string;
  find_module : string -> import_outcome;
  metagpt_version : attr_lookup;
  run : list string -> Z -> run_outcome;
  home : Path;
  fs : Path -> option fs_node
}.

(** ** Strings *)

Definition LF : string := String (ascii_of_nat 10) EmptyString.

(** [str(n)] and [{n}] in an f-string. *)
Definition str (n : Z) : string := NilZero.string_of_int (Z.to_int n).

(** [s * n] *)
Fixpoint str_mul (s : string) (n : nat) : string :=
  match n with
  | O => EmptyString
  | S n' => s +:+ str_mul s n'
  end.

(** The characters [str.isspace] accepts in the ASCII range; [strip]
    below is [str.strip] on ASCII text. *)
Definition isspace (c : ascii) : bool :=
  let n := nat_of_ascii c in
  ((9 <=? n) && (n <=? 13))%nat || ((28 <=? n) && (n <=? 32))%nat.

Fixpoint lstrip (s : string) : string :=
  match s with
  | EmptyString => EmptyString
  | String c s' => if isspace c then lstrip s' else s
  end.

Fixpoint rstrip (s : string) : string :=
  match s with
  | EmptyString => EmptyString
  | String c s' =>
      match rstrip s' with
      | EmptyString => if isspace c then EmptyString else String c EmptyString
      | r => String c r
      end
  end.

Definition strip (s : string) : string := rstrip (lstrip s).

(** ** Paths *)

(** [p / part] *)
Definition path_div (p : Path) (part : string) : Path := p ++ [part].

(** [str(p)] *)
Definition path_str (p : Path) : string :=
  match p with
  | [] => "."
  | root :: rest =>
      if String.eqb root "/" then "/" +:+ String.concat "/" rest
      else String.concat "/" p
  end.

(** ** Computations *)

(** One run of a piece of the script: what it did, the modules loaded
    afterwards, and the value returned or the exception raised. *)
Record Run (A : Type) : Type := mkRun {
  events : list event;
  sys_modules : gset string;
  value : outcome A
}.
Arguments mkRun {A} events sys_modules value.
Arguments events {A} r.
Arguments sys_modules {A} r.
Arguments value {A} r.

Definition M (A : Type) : Type := gset string -> Run A.

Definition ret {A : Type} (a : A) : M A :=
  fun s => mkRun [] s (Return a).

Definition raise {A : Type} (e : exn) : M A :=
  fun s => mkRun [] s (Raise e).

Definition bind {A B : Type} (m : M A) (k : A -> M B) : M B :=
  fun s =>
    let r := m s in
    match value r with
    | Return a =>
        let r' := k a (sys_modules r) in
        mkRun (events r ++ events r') (sys_modules r') (value r')
    | Raise e => mkRun (events r) (sys_modules r) (Raise e)
    end.

(** [try: body / except ...: handler]: the handler answers [None] for an
    exception its [except] clauses do not name, which then propagates. *)
Definition try_except {A : Type} (body : M A) (handler : exn -> option (M A)) : M A :=
  fun s =>
    let r := body s in
    match value r with
    | Return a => r
    | Raise e =>
        match handler e with
        | Some h =>
            let r' := h (sys_modules r) in
            mkRun (events r ++ events r') (sys_modules r') (value r')
        | None => r
        end
    end.

Declare Scope py_scope.
Delimit Scope py_scope with py.
Notation "x <- m ;; k" := (bind m (fun x => k))
  (at level 100, m at next level, right associativity) : py_scope.
Notation "m ;; k" := (bind m (fun _ => k))
  (at level 100, right associativity) : py_scope.
Local Open Scope py_scope.

Definition print (line : string) : M unit :=
  fun s => mkRun [Printed line] s (Return tt).

(** [for x in l: acc = body(x, acc)] *)
Fixpoint for_each {A S : Type} (l : list A) (body : A -> S -> M S) (acc : S) : M S :=
  match l with
  | [] => ret acc
  | x :: l' => acc' <- body x acc ;; for_each l' body acc'
  end.

(** [len(l)] *)
Definition len {A : Type} (l : list A) : Z := Z.of_nat (length l).

(** [sum(l)] on a list of booleans, [True] counting 1. *)
Definition sum (l : list bool) : Z :=
  fold_left (fun acc (b : bool) => acc + (if b then 1 else 0)) l 0.

(** ** The script *)

Section Script.

Context (env : Env).

(** [importlib.import_module(name)] and the [import] statement: a module in
    [sys.modules] is returned as it is; otherwise the import system is
    asked, and a module it finds is entered in [sys.modules].  A module
    that is not found raises [ImportError]; a module whose code raises lets
    that exception through. *)
Definition import_module (name : string) : M unit :=
  fun s =>
    if bool_decide (name ∈ s) then mkRun [] s (Return tt)
    else
      match find_module env name with
      | Found => mkRun [] ({[name]} ∪ s) (Return tt)
      | NotFound msg => mkRun [] s (Raise (ImportError msg))
      | Crashes msg => mkRun [] s (Raise (Exception msg))
      end.

(** [subprocess.run(argv, capture_output=True, text=True, timeout=timeout)] *)
Definition subprocess_run (argv : list string) (timeout : Z) : M CompletedProcess :=
  fun s =>
    mkRun [Spawned argv timeout] s
      match run env argv timeout with
      | Completed p => Return p
      | RunTimeout => Raise TimeoutExpired
      | RunNotFound => Raise FileNotFoundError
      end.

(** [Path.exists()] *)
Definition path_exists (p : Path) : bool :=
  match fs env p with
  | Some _ => true
  | None => false
  end.

(** [hasattr(sys, 'real_prefix') or (hasattr(sys, 'base_prefix') and
    sys.base_prefix != sys.prefix)] *)
Definition in_virtual_env : bool :=
  has_real_prefix env ||
  match base_prefix env with
  | Some b => negb (String.eqb b (prefix env))
  | None => false
  end.

Definition check_python_version : M bool :=
  print "🐍 Checking Python version..." ;;
  let major := version_major env in
  let minor := version_minor env in
  let micro := version_micro env in
  print ("   Python " +:+ str major +:+ "." +:+ str minor +:+ "." +:+ str micro) ;;
  if (major =? 3) && (minor >=? 9) then
    print "   ✅ Python version is compatible" ;;
    ret true
  else
    print ("   ❌ Python 3.9+ required, found " +:+ str major +:+ "." +:+ str minor) ;;
    ret false.

Definition check_virtual_env : M bool :=
  print (LF +:+ "🔧 Checking virtual environment...") ;;
  if in_virtual_env then
    print "   ✅ Running in virtual environment" ;;
    print ("   📍 Python executable: " +:+ executable env) ;;
    ret true
  else
    print "   ⚠️  Not running in virtual environment" ;;
    print "   💡 Activate with: source venv/bin/activate" ;;
    ret false.

Definition check_package_import (package_name description : string) : M bool :=
  try_except
    (import_module package_name ;;
     print ("   ✅ " +:+ package_name +:+ " " +:+ description) ;;
     ret true)
    (fun e =>
       match e with
       | ImportError _ =>
           Some (print ("   ❌ " +:+ package_name +:+ " " +:+ description +:+ " - not available") ;;
                 ret false)
       | _ => None
       end).

Definition dependencies : list (string * string) :=
  [ ("sys", "- Python standard library");
    ("pathlib", "- Path utilities");
    ("subprocess", "- Process management");
    ("importlib", "- Import utilities") ].

Definition optional_deps : list (string * string) :=
  [ ("numpy", "- Numerical computing");
    ("pandas", "- Data manipulation");
    ("pydantic", "- Data validation");
    ("aiohttp", "- Async HTTP client");
    ("openai", "- OpenAI API client");
    ("typer", "- CLI framework");
    ("rich", "- Rich text formatting");
    ("loguru", "- Enhanced logging") ].

Definition check_core_dependencies : M bool :=
  print (LF +:+ "📦 Checking core dependencies...") ;;
  all_good <-
    for_each dependencies
      (fun '(package, desc) all_good =>
         ok <- check_package_import package desc ;;
         ret (if negb ok then false else all_good))
      true ;;
  optional_count <-
    for_each optional_deps
      (fun '(package, desc) optional_count =>
         ok <- check_package_import package desc ;;
         ret (if ok then optional_count + 1 else optional_count))
      0 ;;
  print (LF +:+ "   📊 Optional dependencies: " +:+ str optional_count +:+ "/"
         +:+ str (len optional_deps) +:+ " available") ;;
  ret all_good.

Definition check_metagpt : M bool :=
  print (LF +:+ "🤖 Checking MetaGPT installation...") ;;
  try_except
    (import_module "metagpt" ;;
     print "   ✅ MetaGPT module can be imported" ;;
     try_except
       (match metagpt_version env with
        | AttrValue v => print ("   📍 Version: " +:+ v)
        | AttrAbsent => print "   📍 Version: Development (no version attribute)"
        | AttrRaises msg => raise (Exception msg)
        end)
       (fun _ => Some (print "   📍 Version: Unknown")) ;;
     ret true)
    (fun e =>
       match e with
       | ImportError msg =>
           Some (print ("   ❌ MetaGPT module not available: " +:+ msg) ;;
                 print "   💡 Try: pip install -e ." ;;
                 ret false)
       | _ => None
       end).

Definition check_console_script : M bool :=
  print (LF +:+ "🎯 Checking console script...") ;;
  try_except
    (result <- subprocess_run ["metagpt"; "--help"] 10 ;;
     if returncode result =? 0 then
       print "   ✅ 'metagpt' command is available" ;;
       ret true
     else
       print "   ❌ 'metagpt' command failed" ;;
       ret false)
    (fun e =>
       match e with
       | TimeoutExpired | FileNotFoundError =>
           Some (print "   ❌ 'metagpt' command not found" ;;
                 print "   💡 Install with: pip install -e ." ;;
                 ret false)
       | _ => None
       end).

Definition config_locations : list Path :=
  [ path_div (path_div (home env) ".metagpt") "config2.yaml";
    path_div ["config"] "config2.yaml" ].

Definition check_config_files : M bool :=
  print (LF +:+ "⚙️  Checking configuration...") ;;
  found_config <-
    for_each config_locations
      (fun config_path found_config =>
         if path_exists config_path then
           print ("   ✅ Config found: " +:+ path_str config_path) ;;
           ret true
         else
           print ("   ❌ Config not found: " +:+ path_str config_path) ;;
           ret found_config)
      false ;;
  (if negb found_config then
     print "   💡 Setup config with:" ;;
     print "      mkdir -p ~/.metagpt" ;;
     print "      cp config/config2.yaml ~/.metagpt/config2.yaml" ;;
     print "      # Edit ~/.metagpt/config2.yaml with your API keys"
   else ret tt) ;;
  ret found_config.

Definition only_FileNotFoundError (h : M unit) (e : exn) : option (M unit) :=
  match e with
  | FileNotFoundError => Some h
  | _ => None
  end.

Definition check_optional_tools : M unit :=
  print (LF +:+ "🛠️  Checking optional tools...") ;;
  try_except
    (result <- subprocess_run ["npm"; "--version"] 5 ;;
     if returncode result =? 0 then
       print ("   ✅ npm available (version " +:+ strip (stdout result) +:+ ")") ;;
       try_except
         (result <- subprocess_run ["mmdc"; "--version"] 5 ;;
          if returncode result =? 0 then
            print "   ✅ mermaid-cli available"
          else
            print "   ❌ mermaid-cli not available" ;;
            print "   💡 Install with: npm install -g @mermaid-js/mermaid-cli")
         (only_FileNotFoundError
            (print "   ❌ mermaid-cli not available" ;;
             print "   💡 Install with: npm install -g @mermaid-js/mermaid-cli"))
     else
       print "   ❌ npm not working properly")
    (only_FileNotFoundError
       (print "   ❌ npm not found" ;;
        print "   💡 Install Node.js from: https://nodejs.org/")) ;;
  try_except
    (result <- subprocess_run ["playwright"; "--version"] 5 ;;
     if returncode result =? 0 then
       print "   ✅ Playwright available"
     else
       print "   ❌ Playwright not available")
    (only_FileNotFoundError
       (print "   ❌ Playwright not available" ;;
        print "   💡 Install browsers with: playwright install --with-deps chromium")).

Definition main : M Z :=
  print "🚀 MetaGPT Setup Verification" ;;
  print (str_mul "=" 40) ;;
  c1 <- check_python_version ;;
  c2 <- check_virtual_env ;;
  c3 <- check_core_dependencies ;;
  c4 <- check_metagpt ;;
  c5 <- check_console_script ;;
  c6 <- check_config_files ;;
  let checks := [c1; c2; c3; c4; c5; c6] in
  check_optional_tools ;;
  print (LF +:+ str_mul "=" 40) ;;
  let passed := sum checks in
  let total := len checks in
  if passed =? total then
    print "🎉 All checks passed! MetaGPT setup is ready." ;;
    ret 0
  else
    print ("⚠️  " +:+ str passed +:+ "/" +:+ str total +:+ " checks passed. Setup needs attention.") ;;
    print (LF +:+ "💡 Next steps:") ;;
    print "1. Ensure virtual environment is activated: source venv/bin/activate" ;;
    print "2. Install dependencies: pip install -r requirements.txt" ;;
    print "3. Install MetaGPT: pip install -e ." ;;
    print "4. Setup configuration files as shown above" ;;
    ret 1.

End Script.

(** [sys.exit(main())] at the bottom of the script: the status the process
    ends with.  An exception that leaves [main] ends the interpreter with a
    traceback and status 1. *)
Definition exit_status (r : Run Z) : Z :=
  match value r with
  | Return code => code
  | Raise _ => 1
  end.

(** ** Reading a run *)

(** The lines of the report, in order. *)
Fixpoint printed (t : list event) : list string :=
  match t with
  | [] => []
  | Printed line :: t' => line :: printed t'
  | Spawned _ _ :: t' => printed t'
  end.

(** Whether [subprocess.run] was called on a command line. *)
Definition spawned (argv : list string) (t : list event) : bool :=
  existsb (fun e =>
             match e with
             | Spawned argv' _ => bool_decide (argv' = argv)
             | Printed _ => false
             end) t.

(** The script marks every corrective instruction with the light bulb. *)
Definition is_hint (line : string) : bool := String.prefix "   💡" line.

(** The remediation text of a run: its corrective instructions. *)
Definition remediation (t : list event) : list string :=
  List.filter is_hint (printed t).

(** [needle in line] *)
Definition mentions (needle line : string) : bool :=
  match String.index 0 needle line with
  | Some _ => true
  | None => false
  end.

(** [a >= b] on pairs of integers, as Python compares tuples. *)
Definition tuple_ge (a b : Z * Z) : bool :=
  (fst b <? fst a) || ((fst a =? fst b) && (snd b <=? snd a)).

(** Whether a module is available to an import in state [s]. *)
Definition resolves (env : Env) (s : gset string) (name : string) : bool :=
  bool_decide (name ∈ s) ||
  match find_module env name with
  | Found => true
  | NotFound _ => false
  | Crashes _ => false
  end.

(** What an import of [name] in state [s] comes to, for a caller that
    catches [ImportError] and nothing else: the module, no module, or the
    exception that gets past the caller. *)
Definition import_result (env : Env) (s : gset string) (name : string) : outcome bool :=
  if bool_decide (name ∈ s) then Return true
  else
    match find_module env name with
    | Found => Return true
    | NotFound _ => Return false
    | Crashes msg => Raise (Exception msg)
    end.

(** The same for the modules of a list, in order, up to the first
    exception. *)
Fixpoint import_all (env : Env) (s : gset string) (names : list string) : outcome (list bool) :=
  match names with
  | [] => Return []
  | name :: names' =>
      match import_result env s name with
      | Raise e => Raise e
      | Return ok =>
          match import_all env s names' with
          | Raise e => Raise e
          | Return oks => Return (ok :: oks)
          end
      end
  end.

(** ** Environments *)

Definition with_version (env : Env) (major minor micro : Z) : Env :=
  {| version_major := major;
     version_minor := minor;
     version_micro := micro;
     has_real_prefix := has_real_prefix env;
     base_prefix := base_prefix env;
     prefix := prefix env;
     executable := executable env;
     find_module := find_module env;
     metagpt_version := metagpt_version env;
     run := run env;
     home := home env;
     fs := fs env |}.

Definition with_prefixes (env : Env) (real : bool) (base : option string) (active : string) : Env :=
  {| version_major := version_major env;
     version_minor := version_minor env;
     version_micro := version_micro env;
     has_real_prefix := real;
     base_prefix := base;
     prefix := active;
     executable := executable env;
     find_module := find_module env;
     metagpt_version := metagpt_version env;
     run := run env;
     home := home env;
     fs := fs env |}.

Definition with_find_module (env : Env) (find : string -> import_outcome) : Env :=
  {| version_major := version_major env;
     version_minor := version_minor env;
     version_micro := version_micro env;
     has_real_prefix := has_real_prefix env;
     base_prefix := base_prefix env;
     prefix := prefix env;
     executable := executable env;
     find_module := find;
     metagpt_version := metagpt_version env;
     run := run env;
     home := home env;
     fs := fs env |}.

Definition with_run (env : Env) (run' : list string -> Z -> run_outcome) : Env :=
  {| version_major := version_major env;
     version_minor := version_minor env;
     version_micro := version_micro env;
     has_real_prefix := has_real_prefix env;
     base_prefix := base_prefix env;
     prefix := prefix env;
     executable := executable env;
     find_module := find_module env;
     metagpt_version := metagpt_version env;
     run := run';
     home := home env;
     fs := fs env |}.

Definition with_fs (env : Env) (fs' : Path -> option fs_node) : Env :=
  {| version_major := version_major env;
     version_minor := version_minor env;
     version_micro := version_micro env;
     has_real_prefix := has_real_prefix env;
     base_prefix := base_prefix env;
     prefix := prefix env;
     executable := executable env;
     find_module := find_module env;
     metagpt_version := metagpt_version env;
     run := run env;
     home := home env;
     fs := fs' |}.

(** The environment, with another answer for one command line. *)
Definition with_command (env : Env) (argv0 : list string) (o : run_outcome) : Env :=
  with_run env (fun argv timeout =>
                  if bool_decide (argv = argv0) then o else run env argv timeout).

(** The environment, with another answer of the import system for the
    modules of a list. *)
Definition with_modules (env : Env) (names : list string) (find : string -> import_outcome) : Env :=
  with_find_module env (fun name =>
                          if bool_decide (name ∈ names) then find name
                          else find_module env name).

Definition exited (code : Z) : run_outcome :=
  Completed {| returncode := code; stdout := EmptyString |}.

Definition user_config : Path := ["/"; "home"; "dev"; ".metagpt"; "config2.yaml"].

(** Python 3.11.2 in a virtual environment, every module installed, every
    command present, the user's configuration file in place. *)
Definition env_ready : Env :=
  {| version_major := 3;
     version_minor := 11;
     version_micro := 2;
     has_real_prefix := false;
     base_prefix := Some "/usr";
     prefix := "/home/dev/MetaGPT/venv";
     executable := "/home/dev/MetaGPT/venv/bin/python";
     find_module := fun _ => Found;
     metagpt_version := AttrAbsent;
     run := fun _ _ => Completed {| returncode := 0; stdout := "10.2.4" +:+ LF |};
     home := ["/"; "home"; "dev"];
     fs := fun p => if bool_decide (p = user_config) then Some (File "llm: {}") else None |}.

(** The modules the script itself has imported when [main] starts. *)
Definition modules_at_start : gset string :=
  {["sys"; "subprocess"; "importlib"; "pathlib"]}.

(** The same machine with the system interpreter, outside a virtual
    environment. *)
Definition env_system_python : Env :=
  with_prefixes env_ready false (Some "/usr") "/usr".

(** [npm --version] does not answer within its five seconds. *)
Definition env_npm_hangs : Env :=
  with_command env_ready ["npm"; "--version"] RunTimeout.

(** [playwright --version] does not answer within its five seconds. *)
Definition env_playwright_hangs : Env :=
  with_command env_ready ["playwright"; "--version"] RunTimeout.

(** Node.js is not installed. *)
Definition env_npm_missing : Env :=
  with_command env_ready ["npm"; "--version"] RunNotFound.

(** The three faults of the console entry point. *)
Definition env_console_missing : Env :=
  with_command env_ready ["metagpt"; "--help"] RunNotFound.

Definition env_console_hangs : Env :=
  with_command env_ready ["metagpt"; "--help"] RunTimeout.

Definition env_console_fails : Env :=
  with_command env_ready ["metagpt"; "--help"] (exited 2).

(** A hypothetical Python 4.0, and a Python 3.8. *)
Definition env_python_4_0 : Env := with_version env_ready 4 0 0.

Definition env_python_3_8 : Env := with_version env_ready 3 8 18.

(** The user's configuration file exists and is empty; there is no
    project configuration. *)
Definition env_empty_config : Env :=
  with_fs env_ready (fun p => if bool_decide (p = user_config) then Some (File EmptyString) else None).

(** None of the optional packages is installed. *)
Definition env_no_optional_deps : Env :=
  with_modules env_ready (map fst optional_deps) (fun name => NotFound ("No module named '" +:+ name +:+ "'")).

(** The target package is not installed. *)
Definition env_no_metagpt : Env :=
  with_modules env_ready ["metagpt"] (fun _ => NotFound "No module named 'metagpt'").

(** No configuration file anywhere. *)
Definition env_no_config : Env := with_fs env_ready (fun _ => None).

(** pandas is installed, and built against another numpy than the one
    installed: its import raises a [ValueError]. *)
Definition env_pandas_crashes : Env :=
  with_modules env_ready ["pandas"]
    (fun _ => Crashes "numpy.dtype size changed, may indicate binary incompatibility").

(** pandas is not installed. *)
Definition env_no_pandas : Env :=
  with_modules env_ready ["pandas"] (fun _ => NotFound "No module named 'pandas'").

(** ** Derived notions *)

(** A computation that prints no corrective instruction. *)
Definition quiet {A : Type} (m : M A) : Prop :=
  forall s, remediation (events (m s)) = [].

Section Derived.

Context (env : Env).

(** A state [s'] extends [s] when it holds the modules of [s] and, besides
    them, only modules the import system finds. *)
Definition extends (s s' : gset string) : Prop :=
  s ⊆ s' /\ forall name, name ∈ s' -> name ∈ s \/ find_module env name = Found.

(** A computation is stable when it takes a state to an extension of it
    and behaves the same in a state and in an extension of it. *)
Definition stable {A : Type} (m : M A) : Prop :=
  (forall s, extends s (sys_modules (m s))) /\
  (forall s s', extends s s' ->
     events (m s') = events (m s) /\
     value (m s') = value (m s) /\
     extends (sys_modules (m s)) (sys_modules (m s'))).

(** Whether [metagpt --help] completes with status 0. *)
Definition console_script_works : bool :=
  match run env ["metagpt"; "--help"] 10 with
  | Completed p => returncode p =? 0
  | _ => false
  end.

(** Whether one of the tool commands the script gets to run exceeds its
    timeout. *)
Definition tool_times_out : bool :=
  match run env ["npm"; "--version"] 5 with
  | RunTimeout => true
  | RunNotFound => false
  | Completed p =>
      (returncode p =? 0) &&
      match run env ["mmdc"; "--version"] 5 with
      | RunTimeout => true
      | _ => false
      end
  end ||
  match run env ["playwright"; "--version"] 5 with
  | RunTimeout => true
  | _ => false
  end.

(** Whether [npm --version] is missing or completes with another status
    than 0. *)
Definition npm_fails : bool :=
  match run env ["npm"; "--version"] 5 with
  | RunNotFound => true
  | Completed p => negb (returncode p =? 0)
  | RunTimeout => false
  end.

(** The file system with every file emptied. *)
Definition emptied_fs (p : Path) : option fs_node :=
  match fs env p with
  | Some (File _) => Some (File EmptyString)
  | other => other
  end.

(** What the six checks [main] collects return or raise, each run on its
    own in state [s]. *)
Definition check_values (s : gset string) : list (outcome bool) :=
  [ value (check_python_version env s);
    value (check_virtual_env env s);
    value (check_core_dependencies env s);
    value (check_metagpt env s);
    value (check_console_script env s);
    value (check_config_files env s) ].

(** The six checks [main] collects, each run on its own. *)
Definition six_checks (s : gset string) : list bool :=
  [ (version_major env =? 3) && (version_minor env >=? 9);
    in_virtual_env env;
    forallb (resolves env s) (map fst dependencies);
    resolves env s "metagpt";
    console_script_works;
    existsb (path_exists env) (config_locations env) ].

End Derived.

(** ** More readings of a run *)

(** The commands [subprocess.run] was called on, with their timeouts, in
    order. *)
Fixpoint spawns (t : list event) : list (list string * Z) :=
  match t with
  | [] => []
  | Spawned argv timeout :: t' => (argv, timeout) :: spawns t'
  | Printed _ :: t' => spawns t'
  end.

(** A computation that runs no command. *)
Definition spawnless {A : Type} (m : M A) : Prop :=
  forall s, spawns (events (m s)) = [].

(** A computation that always returns: no exception leaves it. *)
Definition returns {A : Type} (m : M A) : Prop :=
  forall s, exists a, value (m s) = Return a.

Definition with_metagpt_version (env : Env) (a : attr_lookup) : Env :=
  {| version_major := version_major env;
     version_minor := version_minor env;
     version_micro := version_micro env;
     has_real_prefix := has_real_prefix env;
     base_prefix := base_prefix env;
     prefix := prefix env;
     executable := executable env;
     find_module := find_module env;
     metagpt_version := a;
     run := run env;
     home := home env;
     fs := fs env |}.

(** The line [check_package_import] prints for a package that resolves or
    does not. *)
Definition package_line (env : Env) (s : gset string) (dep : string * string) : string :=
  if resolves env s (fst dep) then "   ✅ " +:+ fst dep +:+ " " +:+ snd dep
  else "   ❌ " +:+ fst dep +:+ " " +:+ snd dep +:+ " - not available".

(** The line [check_metagpt] prints about the version attribute. *)
Definition version_line (a : attr_lookup) : string :=
  match a with
  | AttrValue v => "   📍 Version: " +:+ v
  | AttrAbsent => "   📍 Version: Development (no version attribute)"
  | AttrRaises _ => "   📍 Version: Unknown"
  end.

(** The tool commands [check_optional_tools] gets to run. *)
Definition tool_commands (env : Env) : list (list string * Z) :=
  (["npm"; "--version"], 5) ::
  match run env ["npm"; "--version"] 5 with
  | Completed p =>
      if returncode p =? 0 then
        (["mmdc"; "--version"], 5) ::
        match run env ["mmdc"; "--version"] 5 with
        | RunTimeout => []
        | _ => [(["playwright"; "--version"], 5)]
        end
      else [(["playwright"; "--version"], 5)]
  | RunTimeout => []
  | RunNotFound => [(["playwright"; "--version"], 5)]
  end.

(** The corrective instructions [check_optional_tools] prints, tool by
    tool.  npm: one when the command is missing, none when it ends with
    another status than 0.  mermaid-cli, which is tried when npm ended with
    status 0: one when the command is missing or ends with another status
    than 0.  Playwright, which is tried unless an earlier command timed
    out: one when the command is missing, none when it ends with another
    status than 0.  A tool that passes has none. *)
Definition playwright_hints (env : Env) : list string :=
  match run env ["playwright"; "--version"] 5 with
  | RunNotFound => ["   💡 Install browsers with: playwright install --with-deps chromium"]
  | Completed _ => []
  | RunTimeout => []
  end.

Definition tool_hints (env : Env) : list string :=
  match run env ["npm"; "--version"] 5 with
  | RunNotFound => "   💡 Install Node.js from: https://nodejs.org/" :: playwright_hints env
  | RunTimeout => []
  | Completed p =>
      if returncode p =? 0 then
        match run env ["mmdc"; "--version"] 5 with
        | RunNotFound =>
            "   💡 Install with: npm install -g @mermaid-js/mermaid-cli" :: playwright_hints env
        | RunTimeout => []
        | Completed q =>
            if returncode q =? 0 then playwright_hints env
            else "   💡 Install with: npm install -g @mermaid-js/mermaid-cli"
                 :: playwright_hints env
        end
      else playwright_hints env
  end.

(** The environment, with other answers for the three tool commands. *)
Definition with_tools (env : Env) (npm mmdc playwright : run_outcome) : Env :=
  with_command
    (with_command (with_command env ["npm"; "--version"] npm) ["mmdc"; "--version"] mmdc)
    ["playwright"; "--version"] playwright.

(** What [main] prints and returns once it has its list of checks and the
    optional tools are done: the end of [main], from its second separator
    line on. *)
Definition summary (checks : list bool) : M Z :=
  print (LF +:+ str_mul "=" 40) ;;
  let passed := sum checks in
  let total := len checks in
  if passed =? total then
    print "🎉 All checks passed! MetaGPT setup is ready." ;;
    ret 0
  else
    print ("⚠️  " +:+ str passed +:+ "/" +:+ str total +:+ " checks passed. Setup needs attention.") ;;
    print (LF +:+ "💡 Next steps:") ;;
    print "1. Ensure virtual environment is activated: source venv/bin/activate" ;;
    print "2. Install dependencies: pip install -r requirements.txt" ;;
    print "3. Install MetaGPT: pip install -e ." ;;
    print "4. Setup configuration files as shown above" ;;
    ret 1.

(** Nothing is installed and nothing is found: no module, no command, no
    file, the system interpreter. *)
Definition env_bare : Env :=
  {| version_major := 3;
     version_minor := 8;
     version_micro := 18;
     has_real_prefix := false;
     base_prefix := Some "/usr";
     prefix := "/usr";
     executable := "/usr/bin/python3";
     find_module := fun name => NotFound ("No module named '" +:+ name +:+ "'");
     metagpt_version := AttrAbsent;
     run := fun _ _ => RunNotFound;
     home := ["/"; "home"; "dev"];
     fs := fun _ => None |}.

(** * example_usage.py *)

Module ExampleUsage.

(** What [example_usage.py] reads besides the environment of
    [verify_setup.py]: [sys.version], the working directory, the answer of
    a [from module import name] for a name of a module that is loaded (the
    name, an [ImportError], or another exception), the message of the
    error [open] raises for a path that is not a file, and the message of
    the error that opening or reading a file raises when the file cannot
    be read ([PermissionError], [UnicodeDecodeError]). *)
Record Host : Type := {
  host_env : Env;
  sys_version : string;
  cwd : Path;
  find_name : string -> string -> import_outcome;
  open_error : Path -> string;
  read_error : Path -> option string
}.

(** [str.split()]: the words between runs of white space. *)
Fixpoint split_from (s word : string) : list string :=
  match s with
  | EmptyString =>
      match word with
      | EmptyString => []
      | _ => [word]
      end
  | String c s' =>
      if isspace c then
        match word with
        | EmptyString => split_from s' EmptyString
        | _ => word :: split_from s' EmptyString
        end
      else split_from s' (word +:+ String c EmptyString)
  end.

Definition split (s : string) : list string := split_from s EmptyString.

(** [len(s)] on a string *)
Definition str_len (s : string) : Z := Z.of_nat (String.length s).

(** [l[0]] *)
Definition first_item (l : list string) : M string :=
  match l with
  | x :: _ => ret x
  | [] => raise (Exception "list index out of range")
  end.

(** The message of an exception, [str(e)].  The two exceptions that carry
    none in this embedding do not arise where it is used. *)
Definition exn_message (e : exn) : string :=
  match e with
  | ImportError msg => msg
  | Exception msg => msg
  | TimeoutExpired => "TimeoutExpired"
  | FileNotFoundError => "FileNotFoundError"
  end.

(** How a loop body ends: at its end, or at a [break]. *)
Inductive flow : Type :=
| Continue
| Break.

(** [for x in l: body(x)] with [break] *)
Fixpoint for_break {A : Type} (l : list A) (body : A -> M flow) : M unit :=
  match l with
  | [] => ret tt
  | x :: l' =>
      f <- body x ;;
      match f with
      | Break => ret tt
      | Continue => for_break l' body
      end
  end.

Section Script.

Context (host : Host).

Local Abbreviation env := (host_env host).

(** [from modname import name]: the module is imported, then the name is
    looked up in it. *)
Definition from_import (modname name : string) : M unit :=
  import_module env modname ;;
  match find_name host modname name with
  | Found => ret tt
  | NotFound msg => raise (ImportError msg)
  | Crashes msg => raise (Exception msg)
  end.

(** [Path.is_dir()] and [Path.is_file()] *)
Definition path_is_dir (p : Path) : bool :=
  match fs env p with
  | Some Dir => true
  | _ => false
  end.

Definition path_is_file (p : Path) : bool :=
  match fs env p with
  | Some (File _) => true
  | _ => false
  end.

(** [with open(p, 'r') as f: f.read()]: the text of a file, one [ascii]
    for each character; a directory or a missing path cannot be opened,
    and a file may be unreadable. *)
Definition read_text (p : Path) : M string :=
  match fs env p with
  | Some (File content) =>
      match read_error host p with
      | Some msg => raise (Exception msg)
      | None => ret content
      end
  | Some Dir => raise (Exception (open_error host p))
  | None => raise (Exception (open_error host p))
  end.

Definition demonstrate_basic_imports : M bool :=
  print "🧪 Testing basic MetaGPT imports..." ;;
  returned <-
    try_except
      (import_module env "metagpt" ;;
       print "   ✅ metagpt - Core module" ;;
       try_except
         (from_import "metagpt.schema" "Message" ;;
          print "   ✅ metagpt.schema.Message - Basic schema")
         (fun e =>
            match e with
            | ImportError msg => Some (print ("   ⚠️  metagpt.schema.Message - " +:+ msg))
            | _ => None
            end) ;;
       try_except
         (from_import "metagpt.config2" "Config" ;;
          print "   ✅ metagpt.config2.Config - Configuration")
         (fun e =>
            match e with
            | ImportError msg => Some (print ("   ⚠️  metagpt.config2.Config - " +:+ msg))
            | _ => None
            end) ;;
       try_except
         (from_import "metagpt.roles.role" "Role" ;;
          print "   ✅ metagpt.roles.role.Role - Base role class")
         (fun e =>
            match e with
            | ImportError msg => Some (print ("   ⚠️  metagpt.roles.role.Role - " +:+ msg))
            | _ => None
            end) ;;
       ret None)
      (fun e =>
         match e with
         | ImportError msg =>
             Some (print ("   ❌ Could not import metagpt: " +:+ msg) ;;
                   ret (Some false))
         | _ => None
         end) ;;
  match returned with
  | Some result => ret result
  | None => ret true
  end.

Definition important_dirs : list string :=
  ["metagpt"; "tests"; "config"; "docs"; "examples"].

Definition important_files : list string :=
  ["requirements.txt"; "setup.py"; "README.md"; "setup_venv.sh"; "verify_setup.py"].

Definition check_project_structure : M unit :=
  print (LF +:+ "📁 Checking project structure...") ;;
  for_each important_dirs
    (fun dir_name _ =>
       let dir_path : Path := [dir_name] in
       if path_exists env dir_path && path_is_dir dir_path then
         print ("   ✅ " +:+ dir_name +:+ "/ - Found")
       else
         print ("   ❌ " +:+ dir_name +:+ "/ - Missing"))
    tt ;;
  for_each important_files
    (fun file_name _ =>
       let file_path : Path := [file_name] in
       if path_exists env file_path && path_is_file file_path then
         print ("   ✅ " +:+ file_name +:+ " - Found")
       else
         print ("   ❌ " +:+ file_name +:+ " - Missing"))
    tt.

Definition config_paths : list Path :=
  [ path_div (path_div (home env) ".metagpt") "config2.yaml";
    path_div ["config"] "config2.yaml" ].

Definition demonstrate_config_loading : M unit :=
  print (LF +:+ "⚙️  Testing configuration loading...") ;;
  for_break config_paths
    (fun config_path =>
       if path_exists env config_path then
         print ("   ✅ Config found: " +:+ path_str config_path) ;;
         try_except
           (content <- read_text config_path ;;
            (if str_len content >? 0 then
               print ("   ✅ Config readable (" +:+ str (str_len content) +:+ " chars)")
             else
               print "   ⚠️  Config file is empty") ;;
            ret Break)
           (fun e =>
              Some (print ("   ❌ Error reading config: " +:+ exn_message e) ;;
                    ret Continue))
       else
         print ("   ⚠️  Config not found: " +:+ path_str config_path) ;;
         ret Continue).

Definition DQ : string := String (ascii_of_nat 34) EmptyString.

Definition steps : list string :=
  [ "1. Install dependencies:";
    "   pip install -r requirements.txt";
    EmptyString;
    "2. Install MetaGPT in development mode:";
    "   pip install -e .";
    EmptyString;
    "3. Set up configuration:";
    "   mkdir -p ~/.metagpt";
    "   cp config/config2.yaml ~/.metagpt/config2.yaml";
    "   # Edit ~/.metagpt/config2.yaml with your API keys";
    EmptyString;
    "4. Test the installation:";
    "   python verify_setup.py";
    EmptyString;
    "5. Run MetaGPT:";
    "   metagpt " +:+ DQ +:+ "Create a simple Python calculator" +:+ DQ;
    EmptyString;
    "6. Optional: Install additional tools:";
    "   npm install -g @mermaid-js/mermaid-cli  # For diagrams";
    "   playwright install --with-deps chromium  # For web scraping" ].

Definition show_next_steps : M unit :=
  print (LF +:+ "🎯 Next Steps for Full Setup:") ;;
  print (str_mul "=" 40) ;;
  for_each steps (fun step _ => print step) tt.

Definition main : M Z :=
  print "🚀 MetaGPT Usage Example" ;;
  print (str_mul "=" 40) ;;
  version <- first_item (split (sys_version host)) ;;
  print ("Python version: " +:+ version) ;;
  print ("Python executable: " +:+ executable env) ;;
  print ("Working directory: " +:+ path_str (cwd host)) ;;
  import_success <- demonstrate_basic_imports ;;
  check_project_structure ;;
  demonstrate_config_loading ;;
  (if import_success : bool then
     print (LF +:+ "✅ Basic MetaGPT structure is available!") ;;
     print "The virtual environment is working correctly."
   else
     print (LF +:+ "⚠️  MetaGPT imports failed - dependencies may need installation.")) ;;
  show_next_steps ;;
  ret (if import_success then 0 else 1).

(** The lines [check_project_structure] prints for a directory and for a
    file that is there or not. *)
Definition dir_line (dir_name : string) : string :=
  if path_is_dir [dir_name] then "   ✅ " +:+ dir_name +:+ "/ - Found"
  else "   ❌ " +:+ dir_name +:+ "/ - Missing".

Definition file_line (file_name : string) : string :=
  if path_is_file [file_name] then "   ✅ " +:+ file_name +:+ " - Found"
  else "   ❌ " +:+ file_name +:+ " - Missing".

(** Whether a path is a file that can be read. *)
Definition readable (config_path : Path) : bool :=
  match fs env config_path, read_error host config_path with
  | Some (File _), None => true
  | _, _ => false
  end.

(** The lines [demonstrate_config_loading] prints for a path that exists. *)
Definition found_lines (config_path : Path) (node : fs_node) : list string :=
  ("   ✅ Config found: " +:+ path_str config_path) ::
  match node with
  | File content =>
      match read_error host config_path with
      | Some msg => ["   ❌ Error reading config: " +:+ msg]
      | None =>
          [if str_len content >? 0
           then "   ✅ Config readable (" +:+ str (str_len content) +:+ " chars)"
           else "   ⚠️  Config file is empty"]
      end
  | Dir => ["   ❌ Error reading config: " +:+ open_error host config_path]
  end.

(** What one of the three component imports comes to: an [ImportError] is
    caught and reported, any other exception gets through. *)
Definition component_result (modname name : string) (s : gset string) : outcome unit :=
  match value (from_import modname name s) with
  | Raise (ImportError _) => Return tt
  | other => other
  end.

(** The lines [demonstrate_config_loading] prints for a path it examines. *)
Definition path_lines (config_path : Path) : list string :=
  match fs env config_path with
  | Some node => found_lines config_path node
  | None => ["   ⚠️  Config not found: " +:+ path_str config_path]
  end.

End Script.

(** Hosts over the environments above. *)
Definition host_of (env : Env) : Host :=
  {| host_env := env;
     sys_version := "3.11.2 (main, Mar 13 2023, 12:18:29) [GCC 12.2.0]";
     cwd := ["/"; "home"; "dev"; "MetaGPT"];
     find_name := fun _ _ => Found;
     open_error := fun p => "[Errno 21] Is a directory: '" +:+ path_str p +:+ "'";
     read_error := fun _ => None |}.

(** The package imports, two of its components do not. *)
Definition host_partial : Host :=
  {| host_env :=
       with_modules env_ready ["metagpt.schema"]
         (fun _ => NotFound "No module named 'pydantic'");
     sys_version := "3.11.2 (main, Mar 13 2023, 12:18:29) [GCC 12.2.0]";
     cwd := ["/"; "home"; "dev"; "MetaGPT"];
     find_name := fun modname name =>
       if String.eqb name "Role"
       then NotFound "cannot import name 'Role' from 'metagpt.roles.role'"
       else Found;
     open_error := fun p => "[Errno 21] Is a directory: '" +:+ path_str p +:+ "'";
     read_error := fun _ => None |}.

(** The user's configuration file is not valid UTF-8; the project has a
    configuration file. *)
Definition host_undecodable : Host :=
  {| host_env :=
       with_fs env_ready
         (fun p => if bool_decide (p = user_config) then Some (File "??")
                   else if bool_decide (p = ["config"; "config2.yaml"]) then Some (File "llm: {}")
                   else None);
     sys_version := "3.11.2 (main, Mar 13 2023, 12:18:29) [GCC 12.2.0]";
     cwd := ["/"; "home"; "dev"; "MetaGPT"];
     find_name := fun _ _ => Found;
     open_error := fun p => "[Errno 21] Is a directory: '" +:+ path_str p +:+ "'";
     read_error := fun p =>
       if bool_decide (p = user_config)
       then Some "'utf-8' codec can't decode byte 0xff in position 0: invalid start byte"
       else None |}.

(** The package imports; its configuration module raises a [ValueError]
    while it is imported. *)
Definition host_component_crashes : Host :=
  {| host_env :=
       with_modules env_ready ["metagpt.config2"]
         (fun _ => Crashes "numpy.dtype size changed, may indicate binary incompatibility");
     sys_version := "3.11.2 (main, Mar 13 2023, 12:18:29) [GCC 12.2.0]";
     cwd := ["/"; "home"; "dev"; "MetaGPT"];
     find_name := fun _ _ => Found;
     open_error := fun p => "[Errno 21] Is a directory: '" +:+ path_str p +:+ "'";
     read_error := fun _ => None |}.

(** A host, with other answers for the three component imports. *)
Definition with_components (host : Host) (find : string -> import_outcome)
    (find_name' : string -> string -> import_outcome) : Host :=
  {| host_env :=
       with_modules (host_env host)
         ["metagpt.schema"; "metagpt.config2"; "metagpt.roles.role"] find;
     sys_version := sys_version host;
     cwd := cwd host;
     find_name := find_name';
     open_error := open_error host;
     read_error := read_error host |}.

(** The user's configuration path is a directory; the project has a
    configuration file. *)
Definition env_config_dir : Env :=
  with_fs env_ready
    (fun p => if bool_decide (p = user_config) then Some Dir
              else if bool_decide (p = ["config"; "config2.yaml"]) then Some (File "llm: {}")
              else None).

End ExampleUsage.

(** * Properties *)

(** ** Runs of a bind *)

Lemma Return_inj {A : Type} (a b : A) : Return a = Return b -> a = b.
Proof. intros H. injection H as H. exact H. Qed.

Lemma value_bind {A B : Type} (m : M A) (k : A -> M B) (s : gset string) :
  value (bind m k s) =
  match value (m s) with
  | Return a => value (k a (sys_modules (m s)))
  | Raise e => Raise e
  end.
Proof. unfold bind. destruct (value (m s)); reflexivity. Qed.

Lemma events_bind {A B : Type} (m : M A) (k : A -> M B) (s : gset string) :
  events (bind m k s) =
  match value (m s) with
  | Return a => events (m s) ++ events (k a (sys_modules (m s)))
  | Raise e => events (m s)
  end.
Proof. unfold bind. destruct (value (m s)); reflexivity. Qed.

Lemma value_try_except {A : Type} (body : M A) (handler : exn -> option (M A))
    (s : gset string) :
  value (try_except body handler s) =
  match value (body s) with
  | Return a => Return a
  | Raise e =>
      match handler e with
      | Some h => value (h (sys_modules (body s)))
      | None => Raise e
      end
  end.
Proof.
  unfold try_except. destruct (value (body s)) as [a|e] eqn:E; [exact E|].
  destruct (handler e); [reflexivity|exact E].
Qed.

Lemma events_try_except {A : Type} (body : M A) (handler : exn -> option (M A))
    (s : gset string) :
  events (try_except body handler s) =
  match value (body s) with
  | Return a => events (body s)
  | Raise e =>
      match handler e with
      | Some h => events (body s) ++ events (h (sys_modules (body s)))
      | None => events (body s)
      end
  end.
Proof.
  unfold try_except. destruct (value (body s)) as [a|e]; [reflexivity|].
  destruct (handler e); reflexivity.
Qed.

Lemma bind_ext {A B : Type} (m m' : M A) (k k' : A -> M B) (s : gset string) :
  m s = m' s ->
  (forall a s', k a s' = k' a s') ->
  bind m k s = bind m' k' s.
Proof.
  intros Hm Hk. unfold bind. rewrite Hm.
  destruct (value (m' s)); [rewrite Hk|]; reflexivity.
Qed.

Lemma sum_all (l : list bool) : (sum l =? len l) = forallb id l.
Proof.
  unfold sum, len.
  assert (G : forall acc, 0 <= acc ->
            fold_left (fun acc (b : bool) => acc + (if b then 1 else 0)) l acc
              <= acc + Z.of_nat (length l) /\
            ((fold_left (fun acc (b : bool) => acc + (if b then 1 else 0)) l acc
               =? acc + Z.of_nat (length l)) = forallb id l)).
  { induction l as [|b l IH]; intros acc Hacc; cbn [fold_left length forallb].
    - split; [lia|]. apply Z.eqb_eq. lia.
    - destruct b; cbn [id andb].
      + destruct (IH (acc + 1)) as [Hle Heq]; [lia|]. split; [lia|].
        rewrite <- Heq. f_equal. lia.
      + destruct (IH (acc + 0)) as [Hle Heq]; [lia|]. split; [lia|].
        apply Z.eqb_neq. lia. }
  destruct (G 0) as [_ Heq]; [lia|]. exact Heq.
Qed.

(** ** The table of loaded modules only grows, and unobservably *)

Section Stability.

Context (env : Env).

Lemma extends_refl (s : gset string) : extends env s s.
Proof. split; [set_solver|]. intros name H. left. exact H. Qed.

Lemma extends_trans (s1 s2 s3 : gset string) :
  extends env s1 s2 -> extends env s2 s3 -> extends env s1 s3.
Proof.
  intros [H12 G12] [H23 G23]. split; [set_solver|].
  intros name H. destruct (G23 name H) as [H2|F]; [|right; exact F].
  apply G12. exact H2.
Qed.

Lemma resolves_extends (s s' : gset string) (name : string) :
  extends env s s' -> resolves env s' name = resolves env s name.
Proof.
  intros [Hsub Hnew]. unfold resolves.
  destruct (bool_decide_reflect (name ∈ s')) as [H'|H'];
    destruct (bool_decide_reflect (name ∈ s)) as [H|H]; cbn [orb]; try reflexivity.
  - destruct (Hnew name H') as [G|G]; [contradiction|]. rewrite G. reflexivity.
  - exfalso. apply H'. apply Hsub. exact H.
Qed.

Lemma stable_ret {A : Type} (a : A) : stable env (ret a).
Proof.
  split; [intros s; apply extends_refl|].
  intros s s' E. cbn. split; [reflexivity|split; [reflexivity|exact E]].
Qed.

Lemma stable_raise {A : Type} (e : exn) : stable env (@raise A e).
Proof.
  split; [intros s; apply extends_refl|].
  intros s s' E. cbn. split; [reflexivity|split; [reflexivity|exact E]].
Qed.

Lemma stable_print (line : string) : stable env (print line).
Proof.
  split; [intros s; apply extends_refl|].
  intros s s' E. cbn. split; [reflexivity|split; [reflexivity|exact E]].
Qed.

Lemma stable_subprocess_run (argv : list string) (timeout : Z) :
  stable env (subprocess_run env argv timeout).
Proof.
  split; [intros s; apply extends_refl|].
  intros s s' E. cbn. split; [reflexivity|split; [reflexivity|exact E]].
Qed.

Lemma stable_import_module (name : string) : stable env (import_module env name).
Proof.
  split.
  - intros s. unfold import_module.
    destruct (bool_decide_reflect (name ∈ s)) as [H|H]; cbn; [apply extends_refl|].
    destruct (find_module env name) eqn:F; cbn; [|apply extends_refl..].
    split; [set_solver|]. intros n Hn.
    apply elem_of_union in Hn as [Hn|Hn]; [|left; exact Hn].
    apply elem_of_singleton in Hn. subst n. right. exact F.
  - intros s s' E. pose proof E as [Hsub Hnew]. unfold import_module.
    destruct (bool_decide_reflect (name ∈ s')) as [H'|H'];
      destruct (bool_decide_reflect (name ∈ s)) as [H|H].
    + cbn. auto.
    + destruct (Hnew name H') as [G|G]; [contradiction|]. rewrite G. cbn.
      repeat split; auto.
      { apply union_subseteq. split; [apply singleton_subseteq_l; exact H'|exact Hsub]. }
      intros n Hn. destruct (Hnew n Hn) as [Hs|F]; [left; set_solver|right; exact F].
    + exfalso. apply H'. apply Hsub. exact H.
    + destruct (find_module env name) eqn:F; cbn; [|auto..].
      split; [reflexivity|]. split; [reflexivity|]. split.
      * apply union_mono_l. exact Hsub.
      * intros n Hn. apply elem_of_union in Hn as [Hn|Hn].
        -- left. set_solver.
        -- destruct (Hnew n Hn) as [Hs|G]; [left; set_solver|right; exact G].
Qed.

Lemma stable_bind {A B : Type} (m : M A) (k : A -> M B) :
  stable env m -> (forall a, stable env (k a)) -> stable env (bind m k).
Proof.
  intros [Gm Sm] Hk. split.
  - intros s. unfold bind. destruct (value (m s)) as [a|e]; cbn; [|apply Gm].
    destruct (Hk a) as [Gk _]. eapply extends_trans; [apply Gm|apply Gk].
  - intros s s' E. destruct (Sm s s' E) as (He & Hv & Hs).
    unfold bind. rewrite Hv. destruct (value (m s)) as [a|e]; cbn; [|auto].
    destruct (Hk a) as [_ Sk].
    destruct (Sk _ _ Hs) as (He' & Hv' & Hs'). rewrite He, He'. auto.
Qed.

Lemma stable_try_except {A : Type} (body : M A) (handler : exn -> option (M A)) :
  stable env body ->
  (forall e h, handler e = Some h -> stable env h) ->
  stable env (try_except body handler).
Proof.
  intros [Gm Sm] Hh. split.
  - intros s. unfold try_except. destruct (value (body s)) as [a|e]; [apply Gm|].
    destruct (handler e) as [h|] eqn:Eh; cbn; [|apply Gm].
    destruct (Hh e h Eh) as [Gh _]. eapply extends_trans; [apply Gm|apply Gh].
  - intros s s' E. destruct (Sm s s' E) as (He & Hv & Hs).
    unfold try_except. rewrite Hv. destruct (value (body s)) as [a|e]; [auto|].
    destruct (handler e) as [h|] eqn:Eh; cbn; [|auto].
    destruct (Hh e h Eh) as [_ Sh].
    destruct (Sh _ _ Hs) as (He' & Hv' & Hs'). rewrite He, He'. auto.
Qed.

Lemma stable_for_each {A S : Type} (l : list A) (body : A -> S -> M S) :
  (forall x acc, stable env (body x acc)) ->
  forall acc, stable env (for_each l body acc).
Proof.
  intros Hb. induction l as [|x l IH]; intros acc; cbn [for_each].
  - apply stable_ret.
  - apply stable_bind; [apply Hb|]. intros acc'. apply IH.
Qed.

(** In a stable sequence the value can be read off the pieces run on their
    own from the initial state. *)
Lemma stable_value_bind {A B : Type} (m : M A) (k : A -> M B) (s : gset string) :
  stable env m -> (forall a, stable env (k a)) ->
  value (bind m k s) =
  match value (m s) with
  | Return a => value (k a s)
  | Raise e => Raise e
  end.
Proof.
  intros [Gm _] Hk. rewrite value_bind.
  destruct (value (m s)) as [a|e]; [|reflexivity].
  destruct (Hk a) as [_ Sk]. destruct (Sk s _ (Gm s)) as (_ & Hv & _). exact Hv.
Qed.

End Stability.

Create HintDb stable discriminated.

#[local] Hint Resolve stable_ret stable_raise stable_print stable_subprocess_run
  stable_import_module : stable.

Ltac stable_handler H :=
  cbv beta delta [only_FileNotFoundError] in H;
  match type of H with
  | match ?e with _ => _ end = Some _ => destruct e; try discriminate H
  | _ => idtac
  end;
  injection H as <-.

Ltac stable_step :=
  match goal with
  | |- stable _ (bind _ _) => apply stable_bind
  | |- stable _ (try_except _ _) => apply stable_try_except
  | |- stable _ (for_each _ _ _) => apply stable_for_each
  | |- stable _ (if ?b then _ else _) => destruct b
  | |- stable _ (match ?x with _ => _ end) => destruct x
  | |- stable _ (match ?x with _ => _ end _) => destruct x; cbv beta
  | |- forall _ _, _ = Some _ -> stable _ _ =>
      let e := fresh "e" in let h := fresh "h" in let H := fresh "H" in
      intros e h H; stable_handler H
  | |- forall _, _ => intro
  | |- stable _ _ => solve [auto with stable]
  end.

Ltac stable_tac := repeat stable_step.

Section StableScript.

Context (env : Env).

Lemma stable_check_python_version : stable env (check_python_version env).
Proof. unfold check_python_version. stable_tac. Qed.

Lemma stable_check_virtual_env : stable env (check_virtual_env env).
Proof. unfold check_virtual_env. stable_tac. Qed.

Lemma stable_check_package_import (package_name description : string) :
  stable env (check_package_import env package_name description).
Proof. unfold check_package_import. stable_tac. Qed.

Lemma stable_check_core_dependencies : stable env (check_core_dependencies env).
Proof.
  pose proof stable_check_package_import.
  unfold check_core_dependencies. stable_tac.
Qed.

Lemma stable_check_metagpt : stable env (check_metagpt env).
Proof. unfold check_metagpt. stable_tac. Qed.

Lemma stable_check_console_script : stable env (check_console_script env).
Proof. unfold check_console_script. stable_tac. Qed.

Lemma stable_check_config_files : stable env (check_config_files env).
Proof. unfold check_config_files. stable_tac. Qed.

Lemma stable_check_optional_tools : stable env (check_optional_tools env).
Proof. unfold check_optional_tools. stable_tac. Qed.

Lemma stable_main : stable env (main env).
Proof.
  pose proof stable_check_python_version.
  pose proof stable_check_virtual_env.
  pose proof stable_check_core_dependencies.
  pose proof stable_check_metagpt.
  pose proof stable_check_console_script.
  pose proof stable_check_config_files.
  pose proof stable_check_optional_tools.
  unfold main. stable_tac.
Qed.

End StableScript.

(** ** What each check returns *)

(** Unfolds the plumbing of a computation, and nothing else. *)
Ltac run_script :=
  cbv beta iota zeta delta
    [bind try_except ret raise print subprocess_run import_module
     only_FileNotFoundError value events sys_modules returncode stdout Z.eqb].

Section Verdicts.

Context (env : Env).

Lemma check_python_version_value (s : gset string) :
  value (check_python_version env s) =
  Return ((version_major env =? 3) && (version_minor env >=? 9)).
Proof.
  unfold check_python_version. rewrite !value_bind. cbn [print value].
  destruct ((version_major env =? 3) && (version_minor env >=? 9));
    rewrite value_bind; reflexivity.
Qed.

Lemma check_virtual_env_value (s : gset string) :
  value (check_virtual_env env s) = Return (in_virtual_env env).
Proof.
  unfold check_virtual_env. rewrite !value_bind. cbn [print value].
  destruct (in_virtual_env env); rewrite !value_bind; reflexivity.
Qed.

(** An import that does not raise past its caller says whether the module
    resolves. *)
Lemma import_result_resolves (s : gset string) (name : string) (b : bool) :
  import_result env s name = Return b -> resolves env s name = b.
Proof.
  unfold import_result, resolves.
  destruct (bool_decide (name ∈ s)); cbn [orb].
  - intros H. apply Return_inj in H. exact H.
  - destruct (find_module env name); intros H; try discriminate H;
      apply Return_inj in H; exact H.
Qed.

Lemma import_result_loaded (s : gset string) (name : string) :
  name ∈ s -> import_result env s name = Return true.
Proof. intros H. unfold import_result. rewrite bool_decide_eq_true_2; [reflexivity|exact H]. Qed.

Lemma import_result_extends (s s' : gset string) (name : string) :
  extends env s s' -> import_result env s' name = import_result env s name.
Proof.
  intros [Hsub Hnew]. unfold import_result.
  destruct (bool_decide_reflect (name ∈ s')) as [H'|H'];
    destruct (bool_decide_reflect (name ∈ s)) as [H|H]; try reflexivity.
  - destruct (Hnew name H') as [G|G]; [contradiction|]. rewrite G. reflexivity.
  - exfalso. apply H'. apply Hsub. exact H.
Qed.

Lemma import_all_Return (s : gset string) (names : list string) (oks : list bool) :
  import_all env s names = Return oks -> oks = map (resolves env s) names.
Proof.
  revert oks. induction names as [|name names IH]; intros oks; cbn [import_all map].
  - intros H. apply Return_inj in H. symmetry. exact H.
  - destruct (import_result env s name) as [ok|e] eqn:R; [|discriminate].
    destruct (import_all env s names) as [oks'|e]; [|discriminate].
    intros H. apply Return_inj in H. subst oks.
    rewrite (import_result_resolves _ _ _ R), (IH oks' eq_refl). reflexivity.
Qed.

Lemma forallb_id_map {A : Type} (f : A -> bool) (l : list A) :
  forallb id (map f l) = forallb f l.
Proof. induction l as [|x l IH]; cbn [map forallb id]; [reflexivity|]. rewrite IH. reflexivity. Qed.

Lemma filter_id_map {A : Type} (f : A -> bool) (l : list A) :
  length (List.filter id (map f l)) = length (List.filter f l).
Proof.
  induction l as [|x l IH]; cbn [map List.filter id]; [reflexivity|].
  destruct (f x); cbn [length]; rewrite IH; reflexivity.
Qed.

Lemma import_module_cases (name : string) (s : gset string) :
  (value (import_module env name s) = Return tt /\
   import_result env s name = Return true) \/
  (exists msg, value (import_module env name s) = Raise (ImportError msg) /\
               import_result env s name = Return false /\
               find_module env name = NotFound msg) \/
  (exists msg, value (import_module env name s) = Raise (Exception msg) /\
               import_result env s name = Raise (Exception msg)).
Proof.
  unfold import_module, import_result.
  destruct (bool_decide (name ∈ s)); [left; split; reflexivity|].
  destruct (find_module env name) as [|msg|msg].
  - left. split; reflexivity.
  - right. left. exists msg. repeat split; reflexivity.
  - right. right. exists msg. split; reflexivity.
Qed.

Lemma check_package_import_value (package_name description : string) (s : gset string) :
  value (check_package_import env package_name description s) =
  import_result env s package_name.
Proof.
  unfold check_package_import, import_result. run_script.
  destruct (bool_decide (package_name ∈ s)); [reflexivity|].
  destruct (find_module env package_name); reflexivity.
Qed.

Lemma required_loop_value (l : list (string * string)) (acc : bool) (s : gset string) :
  value (for_each l
           (fun '(package, desc) all_good =>
              ok <- check_package_import env package desc ;;
              ret (if negb ok then false else all_good)) acc s) =
  match import_all env s (map fst l) with
  | Raise e => Raise e
  | Return oks => Return (acc && forallb id oks)
  end.
Proof.
  pose proof (stable_check_package_import env).
  revert acc. induction l as [|[package desc] l IH]; intros acc;
    cbn [for_each map import_all fst].
  - cbn [ret value forallb]. rewrite andb_true_r. reflexivity.
  - rewrite (stable_value_bind env) by stable_tac.
    rewrite (stable_value_bind env) by stable_tac.
    rewrite check_package_import_value.
    destruct (import_result env s package) as [ok|e]; [|reflexivity].
    cbn [ret value]. rewrite IH.
    destruct (import_all env s (map fst l)) as [oks|e]; [|reflexivity].
    cbn [forallb id]. destruct ok, acc; reflexivity.
Qed.

Lemma optional_loop_value (l : list (string * string)) (acc : Z) (s : gset string) :
  value (for_each l
           (fun '(package, desc) optional_count =>
              ok <- check_package_import env package desc ;;
              ret (if ok then optional_count + 1 else optional_count)) acc s) =
  match import_all env s (map fst l) with
  | Raise e => Raise e
  | Return oks => Return (acc + len (List.filter id oks))
  end.
Proof.
  pose proof (stable_check_package_import env).
  revert acc. induction l as [|[package desc] l IH]; intros acc;
    cbn [for_each map import_all fst].
  - cbn [ret value List.filter]. f_equal. unfold len. cbn [length]. lia.
  - rewrite (stable_value_bind env) by stable_tac.
    rewrite (stable_value_bind env) by stable_tac.
    rewrite check_package_import_value.
    destruct (import_result env s package) as [ok|e]; [|reflexivity].
    cbn [ret value]. rewrite IH.
    destruct (import_all env s (map fst l)) as [oks|e]; [|reflexivity].
    f_equal. destruct ok; cbn [List.filter id]; unfold len; cbn [length]; lia.
Qed.

Lemma check_core_dependencies_value (s : gset string) :
  value (check_core_dependencies env s) =
  match import_all env s (map fst dependencies) with
  | Raise e => Raise e
  | Return required =>
      match import_all env s (map fst optional_deps) with
      | Raise e => Raise e
      | Return _ => Return (forallb id required)
      end
  end.
Proof.
  pose proof (stable_check_package_import env).
  unfold check_core_dependencies.
  rewrite (stable_value_bind env) by stable_tac. cbn [print value].
  rewrite (stable_value_bind env) by stable_tac. rewrite required_loop_value.
  destruct (import_all env s (map fst dependencies)) as [required|e]; [|reflexivity].
  rewrite (stable_value_bind env) by stable_tac. rewrite optional_loop_value.
  destruct (import_all env s (map fst optional_deps)) as [optional|e]; [|reflexivity].
  rewrite value_bind. reflexivity.
Qed.

(** When the core dependencies check returns, it returns whether its four
    required modules resolve. *)
Lemma check_core_dependencies_Return (s : gset string) (b : bool) :
  value (check_core_dependencies env s) = Return b ->
  b = forallb (resolves env s) (map fst dependencies).
Proof.
  rewrite check_core_dependencies_value.
  destruct (import_all env s (map fst dependencies)) as [required|e] eqn:R; [|discriminate].
  destruct (import_all env s (map fst optional_deps)) as [optional|e]; [|discriminate].
  intros H. apply Return_inj in H. subst b.
  rewrite (import_all_Return _ _ _ R). apply forallb_id_map.
Qed.

Lemma check_metagpt_value (s : gset string) :
  value (check_metagpt env s) = import_result env s "metagpt".
Proof.
  unfold check_metagpt.
  rewrite value_bind. cbn [print value sys_modules].
  rewrite value_try_except, value_bind.
  destruct (import_module_cases "metagpt" s) as [[V R]|[(msg & V & R & _)|(msg & V & R)]];
    rewrite V, R.
  - rewrite !value_bind, value_try_except. cbn [print value].
    destruct (metagpt_version env); reflexivity.
  - rewrite !value_bind. reflexivity.
  - reflexivity.
Qed.

Lemma check_metagpt_Return (s : gset string) (b : bool) :
  value (check_metagpt env s) = Return b -> b = resolves env s "metagpt".
Proof.
  rewrite check_metagpt_value. intros H. symmetry. apply import_result_resolves. exact H.
Qed.

Lemma check_console_script_value (s : gset string) :
  value (check_console_script env s) = Return (console_script_works env).
Proof.
  unfold check_console_script, console_script_works, subprocess_run.
  destruct (run env ["metagpt"; "--help"] 10) as [[[|code|code] out]| |]; reflexivity.
Qed.

Lemma check_config_files_value (s : gset string) :
  value (check_config_files env s) =
  Return (existsb (path_exists env) (config_locations env)).
Proof.
  unfold check_config_files, config_locations. cbn [for_each existsb].
  destruct (path_exists env (path_div (path_div (home env) ".metagpt") "config2.yaml"));
    destruct (path_exists env (path_div ["config"] "config2.yaml")); reflexivity.
Qed.

Lemma check_optional_tools_value (s : gset string) :
  value (check_optional_tools env s) =
  if tool_times_out env then Raise TimeoutExpired else Return tt.
Proof.
  unfold check_optional_tools, tool_times_out.
  rewrite (stable_value_bind env) by stable_tac. cbn [print value].
  rewrite (stable_value_bind env) by stable_tac.
  unfold subprocess_run.
  destruct (run env ["npm"; "--version"] 5) as [[[|code1|code1] out1]| |];
    destruct (run env ["mmdc"; "--version"] 5) as [[[|code2|code2] out2]| |];
    destruct (run env ["playwright"; "--version"] 5) as [[[|code3|code3] out3]| |];
    reflexivity.
Qed.

(** The value of [main], read off its checks run on their own from the
    initial state: the first exception that leaves a check or the tools
    leaves [main]; otherwise [main] returns 0 when the six results are all
    true and 1 when one is false. *)
Lemma main_value (s : gset string) :
  value (main env s) =
  match value (check_python_version env s) with
  | Raise e => Raise e
  | Return c1 =>
  match value (check_virtual_env env s) with
  | Raise e => Raise e
  | Return c2 =>
  match value (check_core_dependencies env s) with
  | Raise e => Raise e
  | Return c3 =>
  match value (check_metagpt env s) with
  | Raise e => Raise e
  | Return c4 =>
  match value (check_console_script env s) with
  | Raise e => Raise e
  | Return c5 =>
  match value (check_config_files env s) with
  | Raise e => Raise e
  | Return c6 =>
  match value (check_optional_tools env s) with
  | Raise e => Raise e
  | Return _ => Return (if forallb id [c1; c2; c3; c4; c5; c6] then 0 else 1)
  end end end end end end end.
Proof.
  pose proof (stable_check_python_version env).
  pose proof (stable_check_virtual_env env).
  pose proof (stable_check_core_dependencies env).
  pose proof (stable_check_metagpt env).
  pose proof (stable_check_console_script env).
  pose proof (stable_check_config_files env).
  pose proof (stable_check_optional_tools env).
  unfold main.
  rewrite (stable_value_bind env) by stable_tac. cbn [print value].
  rewrite (stable_value_bind env) by stable_tac. cbn [print value].
  rewrite (stable_value_bind env) by stable_tac.
  destruct (value (check_python_version env s)) as [c1|e]; [|reflexivity].
  rewrite (stable_value_bind env) by stable_tac.
  destruct (value (check_virtual_env env s)) as [c2|e]; [|reflexivity].
  rewrite (stable_value_bind env) by stable_tac.
  destruct (value (check_core_dependencies env s)) as [c3|e]; [|reflexivity].
  rewrite (stable_value_bind env) by stable_tac.
  destruct (value (check_metagpt env s)) as [c4|e]; [|reflexivity].
  rewrite (stable_value_bind env) by stable_tac.
  destruct (value (check_console_script env s)) as [c5|e]; [|reflexivity].
  rewrite (stable_value_bind env) by stable_tac.
  destruct (value (check_config_files env s)) as [c6|e]; [|reflexivity].
  rewrite (stable_value_bind env) by stable_tac.
  destruct (value (check_optional_tools env s)) as [[]|e]; [|reflexivity].
  rewrite value_bind. cbn [print value].
  rewrite sum_all.
  destruct (forallb id [c1; c2; c3; c4; c5; c6]); rewrite !value_bind; reflexivity.
Qed.

Lemma six_returns {A : Type} (v1 v2 v3 v4 v5 v6 : outcome A) (results : list A) :
  [v1; v2; v3; v4; v5; v6] = map Return results ->
  exists c1 c2 c3 c4 c5 c6,
    results = [c1; c2; c3; c4; c5; c6] /\
    v1 = Return c1 /\ v2 = Return c2 /\ v3 = Return c3 /\
    v4 = Return c4 /\ v5 = Return c5 /\ v6 = Return c6.
Proof.
  intros H.
  destruct results as [|c1 [|c2 [|c3 [|c4 [|c5 [|c6 [|c7 rest]]]]]]]; try discriminate H.
  cbn [map] in H. injection H as H1 H2 H3 H4 H5 H6.
  exists c1, c2, c3, c4, c5, c6. repeat split; assumption.
Qed.

(** The checks return [checks]: unpacked. *)
Lemma check_values_inv (s : gset string) (checks : list bool) :
  check_values env s = map Return checks ->
  exists c1 c2 c3 c4 c5 c6,
    checks = [c1; c2; c3; c4; c5; c6] /\
    value (check_python_version env s) = Return c1 /\
    value (check_virtual_env env s) = Return c2 /\
    value (check_core_dependencies env s) = Return c3 /\
    value (check_metagpt env s) = Return c4 /\
    value (check_console_script env s) = Return c5 /\
    value (check_config_files env s) = Return c6.
Proof. unfold check_values. apply six_returns. Qed.

(** When the six checks return, their results are the six conditions on
    the environment. *)
Lemma check_values_six_checks (s : gset string) (checks : list bool) :
  check_values env s = map Return checks -> checks = six_checks env s.
Proof.
  intros H. apply check_values_inv in H
    as (c1 & c2 & c3 & c4 & c5 & c6 & -> & H1 & H2 & H3 & H4 & H5 & H6).
  rewrite check_python_version_value in H1. apply Return_inj in H1.
  rewrite check_virtual_env_value in H2. apply Return_inj in H2.
  apply check_core_dependencies_Return in H3.
  apply check_metagpt_Return in H4.
  rewrite check_console_script_value in H5. apply Return_inj in H5.
  rewrite check_config_files_value in H6. apply Return_inj in H6.
  unfold six_checks. congruence.
Qed.

Lemma main_value_of_checks (s : gset string) (checks : list bool) :
  check_values env s = map Return checks ->
  value (main env s) =
  match value (check_optional_tools env s) with
  | Raise e => Raise e
  | Return _ => Return (if forallb id checks then 0 else 1)
  end.
Proof.
  intros H. apply check_values_inv in H
    as (c1 & c2 & c3 & c4 & c5 & c6 & -> & H1 & H2 & H3 & H4 & H5 & H6).
  rewrite main_value, H1, H2, H3, H4, H5, H6. reflexivity.
Qed.

End Verdicts.

(** ** Other answers of the environment *)

Lemma run_with_command_same (env : Env) (argv : list string) (o : run_outcome) (timeout : Z) :
  run (with_command env argv o) argv timeout = o.
Proof.
  unfold with_command, with_run. cbn [run].
  rewrite bool_decide_eq_true_2; reflexivity.
Qed.

Lemma run_with_command_other (env : Env) (argv argv' : list string) (o : run_outcome)
    (timeout : Z) :
  argv' <> argv -> run (with_command env argv o) argv' timeout = run env argv' timeout.
Proof.
  intros Hne. unfold with_command, with_run. cbn [run].
  rewrite bool_decide_eq_false_2; [reflexivity|exact Hne].
Qed.

Lemma run_with_tools (env : Env) (npm mmdc playwright : run_outcome) (timeout : Z) :
  run (with_tools env npm mmdc playwright) ["npm"; "--version"] timeout = npm /\
  run (with_tools env npm mmdc playwright) ["mmdc"; "--version"] timeout = mmdc /\
  run (with_tools env npm mmdc playwright) ["playwright"; "--version"] timeout = playwright /\
  run (with_tools env npm mmdc playwright) ["metagpt"; "--help"] timeout =
    run env ["metagpt"; "--help"] timeout.
Proof.
  unfold with_tools. split; [|split; [|split]].
  - rewrite !run_with_command_other by discriminate. apply run_with_command_same.
  - rewrite run_with_command_other by discriminate. apply run_with_command_same.
  - apply run_with_command_same.
  - rewrite !run_with_command_other by discriminate. reflexivity.
Qed.

Lemma find_module_with_modules_in (env : Env) (names : list string)
    (find : string -> import_outcome) (name : string) :
  In name names -> find_module (with_modules env names find) name = find name.
Proof.
  intros H. unfold with_modules, with_find_module. cbn [find_module].
  rewrite bool_decide_eq_true_2; [reflexivity|]. apply list_elem_of_In. exact H.
Qed.

Lemma import_result_with_modules (env : Env) (names : list string)
    (find : string -> import_outcome) (s : gset string) (name : string) :
  bool_decide (name ∈ names) = false ->
  import_result (with_modules env names find) s name = import_result env s name.
Proof.
  intros H. unfold import_result, with_modules, with_find_module. cbn [find_module].
  rewrite H. reflexivity.
Qed.

(** Imports that raise nothing but [ImportError] all come to an answer. *)
Lemma import_all_returns (env : Env) (s : gset string) (names : list string) :
  (forall name msg, In name names -> find_module env name <> Crashes msg) ->
  exists oks, import_all env s names = Return oks.
Proof.
  induction names as [|name names IH]; intros H; cbn [import_all].
  - exists []. reflexivity.
  - destruct IH as [oks ->]; [intros n msg Hn; apply H; right; exact Hn|].
    unfold import_result. destruct (bool_decide (name ∈ s)); [eexists; reflexivity|].
    destruct (find_module env name) as [|msg|msg] eqn:F; try (eexists; reflexivity).
    exfalso. apply (H name msg); [left; reflexivity|exact F].
Qed.

Lemma check_optional_tools_returns (env : Env) (s : gset string) :
  run env ["npm"; "--version"] 5 <> RunTimeout ->
  run env ["mmdc"; "--version"] 5 <> RunTimeout ->
  run env ["playwright"; "--version"] 5 <> RunTimeout ->
  value (check_optional_tools env s) = Return tt.
Proof.
  rewrite check_optional_tools_value. unfold tool_times_out.
  destruct (run env ["npm"; "--version"] 5) as [[[|code1|code1] out1]| |];
    destruct (run env ["mmdc"; "--version"] 5) as [[[|code2|code2] out2]| |];
    destruct (run env ["playwright"; "--version"] 5) as [[[|code3|code3] out3]| |];
    intros H1 H2 H3; try reflexivity; congruence.
Qed.

(** The core dependencies check returns the same whatever the optional
    modules answer, as long as they raise nothing but [ImportError]. *)
Lemma check_core_dependencies_with_modules (env : Env) (s : gset string) (b : bool)
    (find : string -> import_outcome) :
  value (check_core_dependencies env s) = Return b ->
  (forall name msg, find name <> Crashes msg) ->
  value (check_core_dependencies (with_modules env (map fst optional_deps) find) s) =
  Return b.
Proof.
  intros Hb Hfind. set (env' := with_modules env (map fst optional_deps) find).
  rewrite check_core_dependencies_value in Hb |- *.
  assert (R : import_all env' s (map fst dependencies) =
              import_all env s (map fst dependencies)).
  { subst env'. cbn [map fst dependencies import_all].
    rewrite !import_result_with_modules by (vm_compute; reflexivity). reflexivity. }
  rewrite R. destruct (import_all env s (map fst dependencies)) as [required|e];
    [|discriminate Hb].
  destruct (import_all env s (map fst optional_deps)) as [optional|e]; [|discriminate Hb].
  destruct (import_all_returns env' s (map fst optional_deps)) as [oks ->]; [|exact Hb].
  intros name msg Hin. subst env'. rewrite find_module_with_modules_in by exact Hin.
  apply Hfind.
Qed.

(** The six checks do not look at the tool commands nor at the optional
    modules, as long as these raise nothing but [ImportError]. *)
Lemma check_values_with_tools_and_modules (env : Env) (s : gset string) (checks : list bool)
    (npm mmdc playwright : run_outcome) (find : string -> import_outcome) :
  check_values env s = map Return checks ->
  (forall name msg, find name <> Crashes msg) ->
  check_values
    (with_modules (with_tools env npm mmdc playwright) (map fst optional_deps) find) s =
  map Return checks.
Proof.
  intros Hchecks Hfind.
  apply check_values_inv in Hchecks
    as (c1 & c2 & c3 & c4 & c5 & c6 & -> & H1 & H2 & H3 & H4 & H5 & H6).
  set (tools := with_tools env npm mmdc playwright).
  set (env' := with_modules tools (map fst optional_deps) find).
  assert (G1 : value (check_python_version env' s) = Return c1).
  { rewrite check_python_version_value in H1 |- *. exact H1. }
  assert (G2 : value (check_virtual_env env' s) = Return c2).
  { rewrite check_virtual_env_value in H2 |- *. exact H2. }
  assert (G3 : value (check_core_dependencies env' s) = Return c3).
  { apply check_core_dependencies_with_modules; [|exact Hfind].
    rewrite check_core_dependencies_value in H3 |- *. exact H3. }
  assert (G4 : value (check_metagpt env' s) = Return c4).
  { rewrite check_metagpt_value in H4 |- *. subst env'.
    rewrite import_result_with_modules by (vm_compute; reflexivity). exact H4. }
  assert (G5 : value (check_console_script env' s) = Return c5).
  { rewrite check_console_script_value in H5 |- *. rewrite <- H5. reflexivity. }
  assert (G6 : value (check_config_files env' s) = Return c6).
  { rewrite check_config_files_value in H6 |- *. exact H6. }
  unfold check_values. rewrite G1, G2, G3, G4, G5, G6. reflexivity.
Qed.

(** ** The verdict of [main] *)




(** C10 at a failing input.  The six checks pass and [playwright --version]
    exceeds its timeout: [check_optional_tools] has no handler for
    [TimeoutExpired], so [main] does not return 0, it does not return at
    all, and the process ends with status 1. *)
Theorem main_lost_when_playwright_hangs :
  value (check_python_version env_playwright_hangs modules_at_start) = Return true /\
  value (check_virtual_env env_playwright_hangs modules_at_start) = Return true /\
  value (check_core_dependencies env_playwright_hangs modules_at_start) = Return true /\
  value (check_metagpt env_playwright_hangs modules_at_start) = Return true /\
  value (check_console_script env_playwright_hangs modules_at_start) = Return true /\
  value (check_config_files env_playwright_hangs modules_at_start) = Return true /\
  value (main env_playwright_hangs modules_at_start) = Raise TimeoutExpired /\
  exit_status (main env_playwright_hangs modules_at_start) = 1.
Proof. vm_compute. repeat split; reflexivity. Qed.

(** ** Exceptions *)

(** C2 at a failing input.  [npm --version] exceeds its timeout:
    [TimeoutExpired] leaves [check_optional_tools] and then [main], after
    the report of the six checks and with nothing printed about the tools.
    [check_console_script] catches the same exception of its own command. *)
Theorem check_optional_tools_leaks_timeout :
  value (check_optional_tools env_npm_hangs modules_at_start) = Raise TimeoutExpired /\
  printed (events (check_optional_tools env_npm_hangs modules_at_start)) =
    [LF +:+ "🛠️  Checking optional tools..."] /\
  value (main env_npm_hangs modules_at_start) = Raise TimeoutExpired /\
  value (check_console_script env_console_hangs modules_at_start) = Return false.
Proof. vm_compute. repeat split; reflexivity. Qed.

(** ** The interpreter version *)

(** C3, as the script has it.  The check passes exactly when the major
    version is 3 and (major, minor) is at least (3, 9): every version below
    (3, 9) fails, and so does every version whose major is above 3. *)
Theorem check_python_version_verdict (env : Env) (s : gset string) :
  value (check_python_version env s) =
  Return ((version_major env =? 3) &&
          tuple_ge (version_major env, version_minor env) (3, 9)).
Proof.
  rewrite check_python_version_value. f_equal. unfold tuple_ge. cbn [fst snd].
  destruct (Z.eqb_spec (version_major env) 3) as [E|E]; [|reflexivity].
  rewrite E. cbn [andb]. rewrite Z.geb_leb. reflexivity.
Qed.

(** C3 as stated fails: (4, 0) is at least (3, 9), and the check fails. *)
Lemma check_python_version_rejects_4_0 :
  tuple_ge (version_major env_python_4_0, version_minor env_python_4_0) (3, 9) = true /\
  value (check_python_version env_python_4_0 modules_at_start) = Return false.
Proof. vm_compute. split; reflexivity. Qed.

(** ** Running twice *)


(** ** Commands *)

Lemma check_console_script_printed (env : Env) (s : gset string) :
  printed (events (check_console_script env s)) =
  (LF +:+ "🎯 Checking console script...") ::
  match run env ["metagpt"; "--help"] 10 with
  | Completed p =>
      if returncode p =? 0 then ["   ✅ 'metagpt' command is available"]
      else ["   ❌ 'metagpt' command failed"]
  | _ => ["   ❌ 'metagpt' command not found"; "   💡 Install with: pip install -e ."]
  end.
Proof.
  unfold check_console_script, subprocess_run.
  destruct (run env ["metagpt"; "--help"] 10) as [[[|code|code] out]| |]; reflexivity.
Qed.




(** ** Configuration files *)

Lemma path_exists_emptied (env : Env) (p : Path) :
  path_exists (with_fs env (emptied_fs env)) p = path_exists env p.
Proof.
  unfold path_exists, with_fs, emptied_fs. cbn [fs].
  destruct (fs env p) as [[c|]|]; reflexivity.
Qed.

(** C8, as the script has it.  When the check returns [True], one of the
    two declared paths exists.  The check never opens a file: a declared
    path that is an empty file makes it return [True], and with every file
    of the file system emptied it returns the same. *)
Theorem check_config_files_presence_only (env : Env) (s : gset string) (b : bool) :
  value (check_config_files env s) = Return b ->
  (b = true -> exists p, In p (config_locations env) /\ path_exists env p = true) /\
  (forall p, In p (config_locations env) -> fs env p = Some (File EmptyString) -> b = true) /\
  value (check_config_files (with_fs env (emptied_fs env)) s) = Return b.
Proof.
  rewrite !check_config_files_value. intros H. apply Return_inj in H. subst b.
  split; [|split].
  - intros H. apply existsb_exists in H. exact H.
  - intros p Hin Hfile. apply existsb_exists. exists p. split; [exact Hin|].
    unfold path_exists. rewrite Hfile. reflexivity.
  - f_equal. unfold config_locations. cbn [existsb home with_fs].
    rewrite !path_exists_emptied. reflexivity.
Qed.

Lemma check_config_files_presence_only_witness :
  value (check_config_files env_empty_config modules_at_start) = Return true /\
  fs env_empty_config user_config = Some (File EmptyString) /\
  value (check_config_files (with_fs env_empty_config (emptied_fs env_empty_config))
           modules_at_start) = Return true.
Proof.
  split; [vm_compute; reflexivity|]. split; [vm_compute; reflexivity|].
  apply (check_config_files_presence_only env_empty_config modules_at_start true).
  vm_compute. reflexivity.
Defined.

(** C8 as stated fails: the user's configuration file exists and is empty,
    and the check reports it as found and passes. *)
Lemma check_config_files_accepts_empty_file :
  fs env_empty_config user_config = Some (File EmptyString) /\
  value (check_config_files env_empty_config modules_at_start) = Return true /\
  printed (events (check_config_files env_empty_config modules_at_start)) =
    [LF +:+ "⚙️  Checking configuration...";
     "   ✅ Config found: /home/dev/.metagpt/config2.yaml";
     "   ❌ Config not found: config/config2.yaml"].
Proof. vm_compute. repeat split; reflexivity. Qed.

(** ** The optional tools *)

Lemma check_optional_tools_without_mmdc (env : Env) (o : run_outcome) (s : gset string) :
  npm_fails env = true ->
  check_optional_tools (with_command env ["mmdc"; "--version"] o) s =
  check_optional_tools env s.
Proof.
  unfold npm_fails, check_optional_tools, subprocess_run. intros Hnpm.
  rewrite !(run_with_command_other env ["mmdc"; "--version"]) by discriminate.
  destruct (run env ["npm"; "--version"] 5) as [[[|code|code] out]| |];
    try discriminate Hnpm; reflexivity.
Qed.

Lemma check_console_script_without_mmdc (env : Env) (o : run_outcome) (s : gset string) :
  check_console_script (with_command env ["mmdc"; "--version"] o) s =
  check_console_script env s.
Proof.
  unfold check_console_script, subprocess_run.
  rewrite !(run_with_command_other env ["mmdc"; "--version"]) by discriminate.
  reflexivity.
Qed.

(** C5, as the script has it.  When [npm --version] is missing or ends
    with a status other than 0, [mmdc --version] is not run, no printed
    line is about mermaid-cli (the tool is passed over in silence: neither
    a failure nor a skip is reported), and whatever [mmdc] would have
    answered, the whole run of [main] is the same. *)
Theorem mmdc_gated_by_npm (env : Env) (s : gset string) (o : run_outcome) :
  npm_fails env = true ->
  spawned ["mmdc"; "--version"] (events (check_optional_tools env s)) = false /\
  existsb (fun line => mentions "mermaid-cli" line || mentions "mmdc" line)
    (printed (events (check_optional_tools env s))) = false /\
  main (with_command env ["mmdc"; "--version"] o) s = main env s.
Proof.
  intros Hnpm. split; [|split].
  - revert Hnpm. unfold npm_fails, check_optional_tools, subprocess_run.
    destruct (run env ["npm"; "--version"] 5) as [[[|code|code] out]| |];
      intros Hnpm; try discriminate Hnpm;
      destruct (run env ["playwright"; "--version"] 5) as [[[|code3|code3] out3]| |];
      vm_compute; reflexivity.
  - revert Hnpm. unfold npm_fails, check_optional_tools, subprocess_run.
    destruct (run env ["npm"; "--version"] 5) as [[[|code|code] out]| |];
      intros Hnpm; try discriminate Hnpm;
      destruct (run env ["playwright"; "--version"] 5) as [[[|code3|code3] out3]| |];
      vm_compute; reflexivity.
  - unfold main.
    repeat (apply bind_ext;
            [first [ apply check_console_script_without_mmdc
                   | apply check_optional_tools_without_mmdc; exact Hnpm
                   | reflexivity ]
            | intros ? ?]).
    reflexivity.
Qed.

Lemma mmdc_gated_by_npm_witness :
  npm_fails env_npm_missing = true /\
  spawned ["mmdc"; "--version"]
    (events (check_optional_tools env_npm_missing modules_at_start)) = false /\
  main (with_command env_npm_missing ["mmdc"; "--version"] RunTimeout) modules_at_start =
  main env_npm_missing modules_at_start.
Proof.
  split; [vm_compute; reflexivity|].
  pose proof (mmdc_gated_by_npm env_npm_missing modules_at_start RunTimeout) as H.
  destruct H as (H1 & _ & H3); [vm_compute; reflexivity|].
  split; assumption.
Defined.

(** C5 as stated fails in one part: with Node.js missing, the report of
    the whole run has no line about mermaid-cli, so the tool is not
    reported as skipped; its command is not run. *)
Lemma mmdc_not_reported_when_npm_missing :
  run env_npm_missing ["npm"; "--version"] 5 = RunNotFound /\
  spawned ["mmdc"; "--version"] (events (main env_npm_missing modules_at_start)) = false /\
  existsb (fun line => mentions "mermaid-cli" line || mentions "mmdc" line)
    (printed (events (main env_npm_missing modules_at_start))) = false /\
  printed (events (check_optional_tools env_npm_missing modules_at_start)) =
    [LF +:+ "🛠️  Checking optional tools...";
     "   ❌ npm not found";
     "   💡 Install Node.js from: https://nodejs.org/";
     "   ✅ Playwright available"].
Proof. vm_compute. repeat split; reflexivity. Qed.

(** ** Corrective instructions *)

Lemma printed_app (t1 t2 : list event) : printed (t1 ++ t2) = printed t1 ++ printed t2.
Proof.
  induction t1 as [|[line|argv timeout] t1 IH]; cbn [printed app]; [reflexivity| |exact IH].
  rewrite IH. reflexivity.
Qed.

Lemma remediation_app (t1 t2 : list event) :
  remediation (t1 ++ t2) = remediation t1 ++ remediation t2.
Proof. unfold remediation. rewrite printed_app. apply List.filter_app. Qed.

Lemma quiet_ret {A : Type} (a : A) : quiet (ret a).
Proof. intros s. reflexivity. Qed.

Lemma quiet_print (line : string) : is_hint line = false -> quiet (print line).
Proof. intros H s. unfold remediation. cbn [print events printed List.filter]. rewrite H. reflexivity. Qed.

Lemma quiet_bind {A B : Type} (m : M A) (k : A -> M B) :
  quiet m -> (forall a, quiet (k a)) -> quiet (bind m k).
Proof.
  intros Hm Hk s. rewrite events_bind. destruct (value (m s)) as [a|e]; [|apply Hm].
  rewrite remediation_app, Hm, Hk. reflexivity.
Qed.

Lemma quiet_try_except {A : Type} (body : M A) (handler : exn -> option (M A)) :
  quiet body -> (forall e h, handler e = Some h -> quiet h) ->
  quiet (try_except body handler).
Proof.
  intros Hb Hh s. rewrite events_try_except.
  destruct (value (body s)) as [a|e]; [apply Hb|].
  destruct (handler e) as [h|] eqn:E; [|apply Hb].
  rewrite remediation_app, Hb, (Hh e h E). reflexivity.
Qed.

Lemma quiet_for_each {A S : Type} (l : list A) (body : A -> S -> M S) :
  (forall x acc, quiet (body x acc)) -> forall acc, quiet (for_each l body acc).
Proof.
  intros Hb. induction l as [|x l IH]; intros acc; cbn [for_each].
  - apply quiet_ret.
  - apply quiet_bind; [apply Hb|]. intros acc'. apply IH.
Qed.

Lemma quiet_import_module (env : Env) (name : string) : quiet (import_module env name).
Proof.
  intros s. unfold import_module.
  destruct (bool_decide (name ∈ s)); [reflexivity|].
  destruct (find_module env name); reflexivity.
Qed.

Lemma quiet_check_package_import (env : Env) (package_name description : string) :
  quiet (check_package_import env package_name description).
Proof.
  unfold check_package_import. apply quiet_try_except.
  - apply quiet_bind; [apply quiet_import_module|]. intros _.
    apply quiet_bind; [apply quiet_print; reflexivity|]. intros _. apply quiet_ret.
  - intros e h H. destruct e; try discriminate H. injection H as <-.
    apply quiet_bind; [apply quiet_print; reflexivity|]. intros _. apply quiet_ret.
Qed.

Lemma quiet_check_core_dependencies (env : Env) : quiet (check_core_dependencies env).
Proof.
  unfold check_core_dependencies.
  apply quiet_bind; [apply quiet_print; reflexivity|]. intros _.
  apply quiet_bind.
  { apply quiet_for_each. intros [package desc] acc.
    apply quiet_bind; [apply quiet_check_package_import|]. intros ok. apply quiet_ret. }
  intros all_good. apply quiet_bind.
  { apply quiet_for_each. intros [package desc] acc.
    apply quiet_bind; [apply quiet_check_package_import|]. intros ok. apply quiet_ret. }
  intros optional_count.
  apply quiet_bind; [apply quiet_print; reflexivity|]. intros _. apply quiet_ret.
Qed.

Lemma quiet_check_python_version (env : Env) : quiet (check_python_version env).
Proof.
  unfold check_python_version.
  apply quiet_bind; [apply quiet_print; reflexivity|]. intros _.
  apply quiet_bind; [apply quiet_print; reflexivity|]. intros _.
  destruct ((version_major env =? 3) && (version_minor env >=? 9));
    (apply quiet_bind; [apply quiet_print; reflexivity|]); intros _; apply quiet_ret.
Qed.

Lemma remediation_try_except {A : Type} (body : M A) (handler : exn -> option (M A))
    (s : gset string) :
  remediation (events (try_except body handler s)) =
  remediation (events (body s)) ++
  match value (body s) with
  | Return _ => []
  | Raise e =>
      match handler e with
      | Some h => remediation (events (h (sys_modules (body s))))
      | None => []
      end
  end.
Proof.
  rewrite events_try_except. destruct (value (body s)) as [a|e]; [symmetry; apply app_nil_r|].
  destruct (handler e) as [h|]; [apply remediation_app|symmetry; apply app_nil_r].
Qed.

Lemma check_metagpt_remediation (env : Env) (s : gset string) :
  remediation (events (check_metagpt env s)) =
  match import_result env s "metagpt" with
  | Return false => ["   💡 Try: pip install -e ."]
  | _ => []
  end.
Proof.
  unfold check_metagpt.
  rewrite events_bind. cbn [print value events sys_modules].
  rewrite remediation_app, remediation_try_except.
  match goal with
  | |- _ ++ remediation (events (?body s)) ++ _ = _ =>
      assert (Q : quiet body)
  end.
  { apply quiet_bind; [apply quiet_import_module|]. intros _.
    apply quiet_bind; [apply quiet_print; reflexivity|]. intros _.
    apply quiet_bind; [|intros _; apply quiet_ret].
    apply quiet_try_except.
    - destruct (metagpt_version env); intros s'; reflexivity.
    - intros e h H. injection H as <-. apply quiet_print. reflexivity. }
  rewrite Q, value_bind.
  destruct (import_module_cases env "metagpt" s) as [[V R]|[(msg & V & R & _)|(msg & V & R)]];
    rewrite V, R.
  - rewrite !value_bind, value_try_except. cbn [print value].
    destruct (metagpt_version env); reflexivity.
  - reflexivity.
  - reflexivity.
Qed.

Lemma check_optional_tools_remediation (env : Env) (s : gset string) :
  remediation (events (check_optional_tools env s)) = tool_hints env.
Proof.
  unfold check_optional_tools, tool_hints, playwright_hints, subprocess_run.
  destruct (run env ["npm"; "--version"] 5) as [[[|code1|code1] out1]| |];
    destruct (run env ["mmdc"; "--version"] 5) as [[[|code2|code2] out2]| |];
    destruct (run env ["playwright"; "--version"] 5) as [[[|code3|code3] out3]| |];
    vm_compute; reflexivity.
Qed.



(** ** The dependency batches *)

(** C6 at a failing input.  The four required modules resolve, they are
    loaded when the script starts, and pandas raises a [ValueError] while
    it is imported.  [check_package_import] catches [ImportError] only: the
    exception leaves it, the core dependencies check stops after the line
    about numpy without a count and without a result, and [main] ends with
    a traceback and status 1.  With pandas not installed at all the check
    returns [True], reports 7/8 and [main] returns 0: what an optional
    package does decides the check and the verdict. *)
Theorem check_core_dependencies_lost_to_optional_crash :
  forallb (resolves env_pandas_crashes modules_at_start) (map fst dependencies) = true /\
  find_module env_pandas_crashes "pandas" =
    Crashes "numpy.dtype size changed, may indicate binary incompatibility" /\
  value (check_core_dependencies env_pandas_crashes modules_at_start) =
    Raise (Exception "numpy.dtype size changed, may indicate binary incompatibility") /\
  printed (events (check_core_dependencies env_pandas_crashes modules_at_start)) =
    [LF +:+ "📦 Checking core dependencies...";
     "   ✅ sys - Python standard library";
     "   ✅ pathlib - Path utilities";
     "   ✅ subprocess - Process management";
     "   ✅ importlib - Import utilities";
     "   ✅ numpy - Numerical computing"] /\
  value (main env_pandas_crashes modules_at_start) =
    Raise (Exception "numpy.dtype size changed, may indicate binary incompatibility") /\
  exit_status (main env_pandas_crashes modules_at_start) = 1 /\
  value (check_core_dependencies env_no_pandas modules_at_start) = Return true /\
  List.last (printed (events (check_core_dependencies env_no_pandas modules_at_start)))
    EmptyString = LF +:+ "   📊 Optional dependencies: 7/8 available" /\
  value (main env_no_pandas modules_at_start) = Return 0.
Proof. vm_compute. repeat split; reflexivity. Qed.

(** With none of the eight optional packages installed the check passes
    and reports 0/8. *)
Example check_core_dependencies_0_of_8 :
  value (check_core_dependencies env_no_optional_deps modules_at_start) = Return true /\
  List.last (printed (events (check_core_dependencies env_no_optional_deps modules_at_start)))
    EmptyString = LF +:+ "   📊 Optional dependencies: 0/8 available" /\
  value (main env_no_optional_deps modules_at_start) = Return 0.
Proof. vm_compute. repeat split; reflexivity. Qed.

(** ** Sample runs *)

(** Python 3.11.2: the version check passes and prints the three numbers. *)
Example check_python_version_3_11_2 :
  value (check_python_version env_ready modules_at_start) = Return true /\
  printed (events (check_python_version env_ready modules_at_start)) =
    ["🐍 Checking Python version...";
     "   Python 3.11.2";
     "   ✅ Python version is compatible"].
Proof. vm_compute. split; reflexivity. Qed.

(** Everything in place: [main] returns 0 and the process ends with
    status 0. *)
Example main_ready :
  value (main env_ready modules_at_start) = Return 0 /\
  exit_status (main env_ready modules_at_start) = 0.
Proof. vm_compute. split; reflexivity. Qed.

(** The package is not installed: the import check fails with the message
    of the [ImportError] and an instruction, and the status is 1. *)
Example main_without_metagpt :
  printed (events (check_metagpt env_no_metagpt modules_at_start)) =
    [LF +:+ "🤖 Checking MetaGPT installation...";
     "   ❌ MetaGPT module not available: No module named 'metagpt'";
     "   💡 Try: pip install -e ."] /\
  value (check_metagpt env_no_metagpt modules_at_start) = Return false /\
  exit_status (main env_no_metagpt modules_at_start) = 1.
Proof. vm_compute. repeat split; reflexivity. Qed.

(** No configuration file: the check fails, prints the setup commands, and
    the status is 1. *)
Example main_without_config :
  value (check_config_files env_no_config modules_at_start) = Return false /\
  printed (events (check_config_files env_no_config modules_at_start)) =
    [LF +:+ "⚙️  Checking configuration...";
     "   ❌ Config not found: /home/dev/.metagpt/config2.yaml";
     "   ❌ Config not found: config/config2.yaml";
     "   💡 Setup config with:";
     "      mkdir -p ~/.metagpt";
     "      cp config/config2.yaml ~/.metagpt/config2.yaml";
     "      # Edit ~/.metagpt/config2.yaml with your API keys"] /\
  exit_status (main env_no_config modules_at_start) = 1.
Proof. vm_compute. repeat split; reflexivity. Qed.

(** The console script is missing and everything else is in place: the
    status is 1. *)
Example main_without_console_script :
  value (check_console_script env_console_missing modules_at_start) = Return false /\
  exit_status (main env_console_missing modules_at_start) = 1.
Proof. vm_compute. split; reflexivity. Qed.

(** * More of verify_setup.py *)

(** ** The report of [main], piece by piece *)

Lemma stable_events_bind (env : Env) {A B : Type} (m : M A) (k : A -> M B) (s : gset string) :
  stable env m -> (forall a, stable env (k a)) ->
  events (bind m k s) =
  match value (m s) with
  | Return a => events (m s) ++ events (k a s)
  | Raise e => events (m s)
  end.
Proof.
  intros [Gm _] Hk. rewrite events_bind.
  destruct (value (m s)) as [a|e]; [|reflexivity].
  destruct (Hk a) as [_ Sk]. destruct (Sk s _ (Gm s)) as (He & _ & _).
  rewrite He. reflexivity.
Qed.

(** The events of [main], read off its checks run on their own from the
    initial state: [main] goes as far as the first check that raises. *)
Lemma main_events (env : Env) (s : gset string) :
  events (main env s) =
  [Printed "🚀 MetaGPT Setup Verification"; Printed (str_mul "=" 40)] ++
  match value (check_python_version env s) with
  | Raise _ => events (check_python_version env s)
  | Return c1 => events (check_python_version env s) ++
  match value (check_virtual_env env s) with
  | Raise _ => events (check_virtual_env env s)
  | Return c2 => events (check_virtual_env env s) ++
  match value (check_core_dependencies env s) with
  | Raise _ => events (check_core_dependencies env s)
  | Return c3 => events (check_core_dependencies env s) ++
  match value (check_metagpt env s) with
  | Raise _ => events (check_metagpt env s)
  | Return c4 => events (check_metagpt env s) ++
  match value (check_console_script env s) with
  | Raise _ => events (check_console_script env s)
  | Return c5 => events (check_console_script env s) ++
  match value (check_config_files env s) with
  | Raise _ => events (check_config_files env s)
  | Return c6 => events (check_config_files env s) ++
  match value (check_optional_tools env s) with
  | Raise _ => events (check_optional_tools env s)
  | Return _ => events (check_optional_tools env s) ++
                events (summary [c1; c2; c3; c4; c5; c6] s)
  end end end end end end end.
Proof.
  pose proof (stable_check_python_version env).
  pose proof (stable_check_virtual_env env).
  pose proof (stable_check_core_dependencies env).
  pose proof (stable_check_metagpt env).
  pose proof (stable_check_console_script env).
  pose proof (stable_check_config_files env).
  pose proof (stable_check_optional_tools env).
  unfold main.
  rewrite (stable_events_bind env) by stable_tac. cbn [print value events].
  rewrite (stable_events_bind env) by stable_tac. cbn [print value events].
  cbn [app]. do 2 (apply f_equal).
  rewrite (stable_events_bind env) by stable_tac.
  destruct (value (check_python_version env s)) as [c1|e]; [apply f_equal|reflexivity].
  rewrite (stable_events_bind env) by stable_tac.
  destruct (value (check_virtual_env env s)) as [c2|e]; [apply f_equal|reflexivity].
  rewrite (stable_events_bind env) by stable_tac.
  destruct (value (check_core_dependencies env s)) as [c3|e]; [apply f_equal|reflexivity].
  rewrite (stable_events_bind env) by stable_tac.
  destruct (value (check_metagpt env s)) as [c4|e]; [apply f_equal|reflexivity].
  rewrite (stable_events_bind env) by stable_tac.
  destruct (value (check_console_script env s)) as [c5|e]; [apply f_equal|reflexivity].
  rewrite (stable_events_bind env) by stable_tac.
  destruct (value (check_config_files env s)) as [c6|e]; [apply f_equal|reflexivity].
  rewrite (stable_events_bind env) by stable_tac.
  destruct (value (check_optional_tools env s)) as [[]|e]; [apply f_equal|reflexivity].
  reflexivity.
Qed.

Lemma main_events_of_checks (env : Env) (s : gset string) (checks : list bool) :
  check_values env s = map Return checks ->
  events (main env s) =
  [Printed "🚀 MetaGPT Setup Verification"; Printed (str_mul "=" 40)] ++
  events (check_python_version env s) ++
  events (check_virtual_env env s) ++
  events (check_core_dependencies env s) ++
  events (check_metagpt env s) ++
  events (check_console_script env s) ++
  events (check_config_files env s) ++
  events (check_optional_tools env s) ++
  match value (check_optional_tools env s) with
  | Return _ => events (summary checks s)
  | Raise _ => []
  end.
Proof.
  intros H. apply check_values_inv in H
    as (c1 & c2 & c3 & c4 & c5 & c6 & -> & H1 & H2 & H3 & H4 & H5 & H6).
  rewrite main_events, H1, H2, H3, H4, H5, H6.
  destruct (value (check_optional_tools env s)); [reflexivity|].
  rewrite app_nil_r. reflexivity.
Qed.

(** ** The commands that are run *)

Lemma spawns_app (t1 t2 : list event) : spawns (t1 ++ t2) = spawns t1 ++ spawns t2.
Proof.
  induction t1 as [|[line|argv timeout] t1 IH]; cbn [spawns app]; [reflexivity|exact IH|].
  rewrite IH. reflexivity.
Qed.

Lemma spawnless_ret {A : Type} (a : A) : spawnless (ret a).
Proof. intros s. reflexivity. Qed.

Lemma spawnless_raise {A : Type} (e : exn) : spawnless (@raise A e).
Proof. intros s. reflexivity. Qed.

Lemma spawnless_print (line : string) : spawnless (print line).
Proof. intros s. reflexivity. Qed.

Lemma spawnless_import_module (env : Env) (name : string) : spawnless (import_module env name).
Proof.
  intros s. unfold import_module.
  destruct (bool_decide (name ∈ s)); [reflexivity|].
  destruct (find_module env name); reflexivity.
Qed.

Lemma spawnless_bind {A B : Type} (m : M A) (k : A -> M B) :
  spawnless m -> (forall a, spawnless (k a)) -> spawnless (bind m k).
Proof.
  intros Hm Hk s. rewrite events_bind. destruct (value (m s)) as [a|e]; [|apply Hm].
  rewrite spawns_app, Hm, Hk. reflexivity.
Qed.

Lemma spawnless_try_except {A : Type} (body : M A) (handler : exn -> option (M A)) :
  spawnless body -> (forall e h, handler e = Some h -> spawnless h) ->
  spawnless (try_except body handler).
Proof.
  intros Hb Hh s. rewrite events_try_except.
  destruct (value (body s)) as [a|e]; [apply Hb|].
  destruct (handler e) as [h|] eqn:E; [|apply Hb].
  rewrite spawns_app, Hb, (Hh e h E). reflexivity.
Qed.

Lemma spawnless_for_each {A S : Type} (l : list A) (body : A -> S -> M S) :
  (forall x acc, spawnless (body x acc)) -> forall acc, spawnless (for_each l body acc).
Proof.
  intros Hb. induction l as [|x l IH]; intros acc; cbn [for_each].
  - apply spawnless_ret.
  - apply spawnless_bind; [apply Hb|]. intros acc'. apply IH.
Qed.

Lemma spawnless_for_break {A : Type} (l : list A) (body : A -> M ExampleUsage.flow) :
  (forall x, spawnless (body x)) -> spawnless (ExampleUsage.for_break l body).
Proof.
  intros Hb. induction l as [|x l IH]; cbn [ExampleUsage.for_break].
  - apply spawnless_ret.
  - apply spawnless_bind; [apply Hb|]. intros [|]; [exact IH|apply spawnless_ret].
Qed.

Create HintDb spawnless discriminated.

#[local] Hint Resolve spawnless_ret spawnless_raise spawnless_print
  spawnless_import_module : spawnless.

Ltac spawnless_step :=
  match goal with
  | |- spawnless (bind _ _) => apply spawnless_bind
  | |- spawnless (try_except _ _) => apply spawnless_try_except
  | |- spawnless (for_each _ _ _) => apply spawnless_for_each
  | |- spawnless (ExampleUsage.for_break _ _) => apply spawnless_for_break
  | |- spawnless (if ?b then _ else _) => destruct b
  | |- spawnless (match ?x with _ => _ end) => destruct x
  | |- spawnless (match ?x with _ => _ end _) => destruct x; cbv beta
  | |- forall _ _, _ = Some _ -> spawnless _ =>
      let e := fresh "e" in let h := fresh "h" in let H := fresh "H" in
      intros e h H; cbv beta in H;
      match type of H with
      | match ?e with _ => _ end = Some _ => destruct e; try discriminate H
      | _ => idtac
      end;
      injection H as <-
  | |- forall _, _ => intro
  | |- spawnless _ => solve [auto with spawnless]
  end.

Ltac spawnless_tac := repeat spawnless_step.

Lemma spawnless_check_python_version (env : Env) : spawnless (check_python_version env).
Proof. unfold check_python_version. spawnless_tac. Qed.

Lemma spawnless_check_virtual_env (env : Env) : spawnless (check_virtual_env env).
Proof. unfold check_virtual_env. spawnless_tac. Qed.

Lemma spawnless_check_core_dependencies (env : Env) : spawnless (check_core_dependencies env).
Proof. unfold check_core_dependencies, check_package_import. spawnless_tac. Qed.

Lemma spawnless_check_metagpt (env : Env) : spawnless (check_metagpt env).
Proof. unfold check_metagpt. spawnless_tac. Qed.

Lemma spawnless_check_config_files (env : Env) : spawnless (check_config_files env).
Proof. unfold check_config_files. spawnless_tac. Qed.

Lemma spawnless_summary (checks : list bool) : spawnless (summary checks).
Proof. unfold summary. spawnless_tac. Qed.

Lemma check_console_script_spawns (env : Env) (s : gset string) :
  spawns (events (check_console_script env s)) = [(["metagpt"; "--help"], 10)].
Proof.
  unfold check_console_script, subprocess_run.
  destruct (run env ["metagpt"; "--help"] 10) as [[[|code|code] out]| |]; reflexivity.
Qed.

Lemma check_optional_tools_spawns (env : Env) (s : gset string) :
  spawns (events (check_optional_tools env s)) = tool_commands env.
Proof.
  unfold check_optional_tools, tool_commands, subprocess_run.
  destruct (run env ["npm"; "--version"] 5) as [[[|code1|code1] out1]| |];
    destruct (run env ["mmdc"; "--version"] 5) as [[[|code2|code2] out2]| |];
    destruct (run env ["playwright"; "--version"] 5) as [[[|code3|code3] out3]| |];
    reflexivity.
Qed.





(** ** The exit status, in every environment *)

Lemma sum_bounds (l : list bool) : 0 <= sum l <= len l.
Proof.
  unfold sum, len.
  assert (G : forall acc,
            acc <= fold_left (fun acc (b : bool) => acc + (if b then 1 else 0)) l acc
                <= acc + Z.of_nat (length l)).
  { induction l as [|b l IH]; intros acc; cbn [fold_left length]; [lia|].
    specialize (IH (acc + (if b then 1 else 0))). destruct b; lia. }
  specialize (G 0). lia.
Qed.

Ltac status_of_raise :=
  cbn [forallb id andb];
  split; [auto|split; [try discriminate|]];
  try (intros _; repeat split; reflexivity);
  let H := fresh "H" in intros H; decompose [and] H; try reflexivity; discriminate.


Lemma summary_failure_printed (checks : list bool) (s : gset string) :
  (sum checks =? len checks) = false ->
  printed (events (summary checks s)) =
  [LF +:+ str_mul "=" 40] ++
  ["⚠️  " +:+ str (sum checks) +:+ "/" +:+ str (len checks)
    +:+ " checks passed. Setup needs attention.";
   LF +:+ "💡 Next steps:";
   "1. Ensure virtual environment is activated: source venv/bin/activate";
   "2. Install dependencies: pip install -r requirements.txt";
   "3. Install MetaGPT: pip install -e .";
   "4. Setup configuration files as shown above"].
Proof.
  intros H. unfold summary. cbv zeta. rewrite events_bind.
  cbn [print value events sys_modules]. rewrite H. reflexivity.
Qed.

(** When [main] returns, its six checks and the tools check have
    returned, and the code is 0 exactly when the six results are true. *)
Lemma main_returns_inv (env : Env) (s : gset string) (code : Z) :
  value (main env s) = Return code ->
  check_values env s = map Return (six_checks env s) /\
  value (check_optional_tools env s) = Return tt /\
  code = if forallb id (six_checks env s) then 0 else 1.
Proof.
  rewrite main_value. intros Hv.
  destruct (value (check_python_version env s)) as [c1|e] eqn:H1; [|discriminate Hv].
  destruct (value (check_virtual_env env s)) as [c2|e] eqn:H2; [|discriminate Hv].
  destruct (value (check_core_dependencies env s)) as [c3|e] eqn:H3; [|discriminate Hv].
  destruct (value (check_metagpt env s)) as [c4|e] eqn:H4; [|discriminate Hv].
  destruct (value (check_console_script env s)) as [c5|e] eqn:H5; [|discriminate Hv].
  destruct (value (check_config_files env s)) as [c6|e] eqn:H6; [|discriminate Hv].
  destruct (value (check_optional_tools env s)) as [[]|e] eqn:H7; [|discriminate Hv].
  assert (C : check_values env s = map Return [c1; c2; c3; c4; c5; c6]).
  { unfold check_values. rewrite H1, H2, H3, H4, H5, H6. reflexivity. }
  rewrite <- (check_values_six_checks env s _ C).
  apply Return_inj in Hv. split; [exact C|]. split; [reflexivity|]. symmetry. exact Hv.
Qed.



(** ** The package checks *)

Lemma import_module_events (env : Env) (name : string) (s : gset string) :
  events (import_module env name s) = [].
Proof.
  unfold import_module. destruct (bool_decide (name ∈ s)); [reflexivity|].
  destruct (find_module env name); reflexivity.
Qed.

Lemma import_module_modules (env : Env) (name : string) (s : gset string) :
  sys_modules (import_module env name s) = if resolves env s name then {[name]} ∪ s else s.
Proof.
  unfold import_module, resolves.
  destruct (bool_decide_reflect (name ∈ s)) as [H|H]; cbn [orb sys_modules].
  - symmetry. apply subseteq_union_1_L. apply singleton_subseteq_l. exact H.
  - destruct (find_module env name); reflexivity.
Qed.

Lemma import_result_Raise (env : Env) (s : gset string) (name : string) (e : exn) :
  import_result env s name = Raise e ->
  resolves env s name = false /\ exists msg, e = Exception msg /\ find_module env name = Crashes msg.
Proof.
  unfold import_result, resolves.
  destruct (bool_decide (name ∈ s)); [discriminate|].
  destruct (find_module env name) as [|msg|msg]; try discriminate.
  intros H. injection H as <-. split; [reflexivity|]. exists msg. split; reflexivity.
Qed.

Lemma import_all_extends (env : Env) (s s' : gset string) (names : list string) :
  extends env s s' -> import_all env s' names = import_all env s names.
Proof.
  intros E. induction names as [|name names IH]; cbn [import_all]; [reflexivity|].
  rewrite (import_result_extends env s s' name E), IH. reflexivity.
Qed.

Lemma check_package_import_events (env : Env) (package_name description : string)
    (s : gset string) :
  events (check_package_import env package_name description s) =
  match import_result env s package_name with
  | Return _ => [Printed (package_line env s (package_name, description))]
  | Raise _ => []
  end.
Proof.
  unfold check_package_import, package_line. cbn [fst snd].
  rewrite events_try_except, value_bind, events_bind, import_module_events.
  destruct (import_module_cases env package_name s)
    as [[V R]|[(msg & V & R & _)|(msg & V & R)]];
    rewrite V, R; try rewrite (import_result_resolves env s package_name _ R); reflexivity.
Qed.

Lemma check_package_import_modules (env : Env) (package_name description : string)
    (s : gset string) :
  sys_modules (check_package_import env package_name description s) =
  if resolves env s package_name then {[package_name]} ∪ s else s.
Proof.
  rewrite <- import_module_modules. unfold check_package_import, try_except, bind.
  destruct (import_module_cases env package_name s)
    as [[V R]|[(msg & V & R & _)|(msg & V & R)]];
    rewrite V; reflexivity.
Qed.

Lemma required_loop_events (env : Env) (l : list (string * string)) (acc : bool)
    (s s' : gset string) (oks : list bool) :
  extends env s s' ->
  import_all env s (map fst l) = Return oks ->
  events (for_each l
            (fun '(package, desc) all_good =>
               ok <- check_package_import env package desc ;;
               ret (if negb ok then false else all_good)) acc s') =
  map (fun dep => Printed (package_line env s dep)) l.
Proof.
  revert acc s' oks. induction l as [|[package desc] l IH]; intros acc s' oks E Hall;
    cbn [for_each map]; [reflexivity|].
  cbn [map fst import_all] in Hall.
  destruct (import_result env s package) as [ok|e] eqn:R; [|discriminate Hall].
  destruct (import_all env s (map fst l)) as [oks'|e] eqn:RA; [|discriminate Hall].
  rewrite events_bind, value_bind, events_bind.
  rewrite check_package_import_value, check_package_import_events.
  rewrite (import_result_extends env s s' package E), R.
  cbn [ret value events sys_modules app]. rewrite (IH _ _ oks').
  - unfold package_line. cbn [fst]. rewrite (resolves_extends env s s' package E).
    reflexivity.
  - eapply extends_trans; [exact E|].
    match goal with
    | |- extends env s' (sys_modules (?body s')) =>
        assert (St : stable env body)
          by (pose proof (stable_check_package_import env); stable_tac)
    end.
    apply St.
  - reflexivity.
Qed.

Lemma optional_loop_events (env : Env) (l : list (string * string)) (acc : Z)
    (s s' : gset string) (oks : list bool) :
  extends env s s' ->
  import_all env s (map fst l) = Return oks ->
  events (for_each l
            (fun '(package, desc) optional_count =>
               ok <- check_package_import env package desc ;;
               ret (if ok then optional_count + 1 else optional_count)) acc s') =
  map (fun dep => Printed (package_line env s dep)) l.
Proof.
  revert acc s' oks. induction l as [|[package desc] l IH]; intros acc s' oks E Hall;
    cbn [for_each map]; [reflexivity|].
  cbn [map fst import_all] in Hall.
  destruct (import_result env s package) as [ok|e] eqn:R; [|discriminate Hall].
  destruct (import_all env s (map fst l)) as [oks'|e] eqn:RA; [|discriminate Hall].
  rewrite events_bind, value_bind, events_bind.
  rewrite check_package_import_value, check_package_import_events.
  rewrite (import_result_extends env s s' package E), R.
  cbn [ret value events sys_modules app]. rewrite (IH _ _ oks').
  - unfold package_line. cbn [fst]. rewrite (resolves_extends env s s' package E).
    reflexivity.
  - eapply extends_trans; [exact E|].
    match goal with
    | |- extends env s' (sys_modules (?body s')) =>
        assert (St : stable env body)
          by (pose proof (stable_check_package_import env); stable_tac)
    end.
    apply St.
  - reflexivity.
Qed.

Lemma printed_map_Printed (lines : list string) : printed (map Printed lines) = lines.
Proof. induction lines as [|line lines IH]; cbn [map printed]; [reflexivity|]. rewrite IH. reflexivity. Qed.



(** X6.  In a state that holds the four modules the script itself imports
    at its top ([sys], [subprocess], [importlib], [pathlib]), as every
    state [main] can start in does, the core dependencies check never
    returns [False], whatever the environment: the four required imports
    are served from [sys.modules]. *)
Theorem check_core_dependencies_at_start (env : Env) (s : gset string) (b : bool) :
  modules_at_start ⊆ s ->
  value (check_core_dependencies env s) = Return b ->
  b = true.
Proof.
  intros Hsub Hb. rewrite (check_core_dependencies_Return env s b Hb).
  apply forallb_forall. intros name Hin. unfold resolves.
  rewrite bool_decide_eq_true_2; [reflexivity|].
  apply Hsub. cbn [map fst dependencies] in Hin. unfold modules_at_start.
  repeat (destruct Hin as [<-|Hin]; [set_solver|]). destruct Hin.
Qed.

Lemma check_core_dependencies_at_start_witness :
  modules_at_start ⊆ modules_at_start /\
  value (check_core_dependencies env_bare modules_at_start) = Return true.
Proof.
  split; [reflexivity|].
  assert (H : exists b, value (check_core_dependencies env_bare modules_at_start) = Return b).
  { exists true. vm_compute. reflexivity. }
  destruct H as [b H].
  rewrite H. f_equal.
  apply (check_core_dependencies_at_start env_bare modules_at_start b); [reflexivity|exact H].
Defined.

(** X7.  A package that [check_package_import] found stays importable:
    the check enters it in [sys.modules], and a later check of the same
    package returns [True] in any environment, also one where the package
    has since disappeared. *)
Theorem check_package_import_cached (env env' : Env) (package_name description : string)
    (s : gset string) :
  value (check_package_import env package_name description s) = Return true ->
  package_name ∈ sys_modules (check_package_import env package_name description s) /\
  value (check_package_import env' package_name description
           (sys_modules (check_package_import env package_name description s))) =
    Return true.
Proof.
  rewrite check_package_import_value. intros H. apply import_result_resolves in H.
  assert (In_ : package_name ∈
                sys_modules (check_package_import env package_name description s)).
  { rewrite check_package_import_modules, H. apply elem_of_union_l, elem_of_singleton.
    reflexivity. }
  split; [exact In_|].
  rewrite check_package_import_value. apply import_result_loaded. exact In_.
Qed.

Lemma check_package_import_cached_witness :
  value (check_package_import env_ready "numpy" "- Numerical computing" modules_at_start) =
    Return true /\
  value (check_package_import env_bare "numpy" "- Numerical computing"
           (sys_modules
              (check_package_import env_ready "numpy" "- Numerical computing"
                 modules_at_start))) = Return true.
Proof.
  split; [vm_compute; reflexivity|].
  apply (check_package_import_cached env_ready env_bare "numpy" "- Numerical computing"
           modules_at_start).
  vm_compute. reflexivity.
Defined.

Lemma check_metagpt_printed (env : Env) (s : gset string) :
  printed (events (check_metagpt env s)) =
  (LF +:+ "🤖 Checking MetaGPT installation...") ::
  match import_result env s "metagpt" with
  | Return true =>
      ["   ✅ MetaGPT module can be imported"; version_line (metagpt_version env)]
  | Return false =>
      match find_module env "metagpt" with
      | NotFound msg =>
          ["   ❌ MetaGPT module not available: " +:+ msg; "   💡 Try: pip install -e ."]
      | _ => []
      end
  | Raise _ => []
  end.
Proof.
  unfold check_metagpt.
  rewrite events_bind. cbn [print value events sys_modules].
  rewrite events_try_except, value_bind, events_bind, import_module_events.
  destruct (import_module_cases env "metagpt" s)
    as [[V R]|[(msg & V & R & F)|(msg & V & R)]]; rewrite V, R.
  - destruct (metagpt_version env); reflexivity.
  - rewrite F. reflexivity.
  - reflexivity.
Qed.

(** X8.  The version attribute of the package never decides the MetaGPT
    check: with any other attribute, also one whose lookup raises, the
    check returns the same, and when the package imports the report
    differs in the version line only, which reads Unknown for an
    attribute that raises. *)
Theorem check_metagpt_version_harmless (env : Env) (a : attr_lookup) (s : gset string) :
  value (check_metagpt (with_metagpt_version env a) s) = value (check_metagpt env s) /\
  printed (events (check_metagpt (with_metagpt_version env a) s)) =
  (LF +:+ "🤖 Checking MetaGPT installation...") ::
  if resolves env s "metagpt" then
    ["   ✅ MetaGPT module can be imported";
     match a with
     | AttrValue v => "   📍 Version: " +:+ v
     | AttrAbsent => "   📍 Version: Development (no version attribute)"
     | AttrRaises _ => "   📍 Version: Unknown"
     end]
  else skipn 1 (printed (events (check_metagpt env s))).
Proof.
  rewrite !check_metagpt_value, !check_metagpt_printed. split; [reflexivity|].
  change (import_result (with_metagpt_version env a) s "metagpt")
    with (import_result env s "metagpt").
  change (find_module (with_metagpt_version env a) "metagpt")
    with (find_module env "metagpt").
  destruct (import_result env s "metagpt") as [[|]|e] eqn:R.
  - rewrite (import_result_resolves env s _ _ R). reflexivity.
  - rewrite (import_result_resolves env s _ _ R). reflexivity.
  - destruct (import_result_Raise env s _ _ R) as [-> _]. reflexivity.
Qed.

(** ** The modules that are loaded *)


(** ** The report of [main] is the reports of its checks *)



(** ** The required modules decide the core dependencies check *)


(** * example_usage.py *)

(** ** Computations that always return *)

Lemma returns_ret {A : Type} (a : A) : returns (ret a).
Proof. intros s. exists a. reflexivity. Qed.

Lemma returns_print (line : string) : returns (print line).
Proof. intros s. exists tt. reflexivity. Qed.

Lemma returns_bind {A B : Type} (m : M A) (k : A -> M B) :
  returns m -> (forall a, returns (k a)) -> returns (bind m k).
Proof.
  intros Hm Hk s. destruct (Hm s) as [a Ha]. rewrite value_bind, Ha. apply Hk.
Qed.

Lemma returns_for_each {A S : Type} (l : list A) (body : A -> S -> M S) :
  (forall x acc, returns (body x acc)) -> forall acc, returns (for_each l body acc).
Proof.
  intros Hb. induction l as [|x l IH]; intros acc; cbn [for_each].
  - apply returns_ret.
  - apply returns_bind; [apply Hb|]. intros acc'. apply IH.
Qed.

Section ExampleUsageFacts.

Import ExampleUsage.

Context (host : Host).

Local Abbreviation env := (host_env host).

Lemma stable_for_break {A : Type} (l : list A) (body : A -> M flow) :
  (forall x, stable env (body x)) -> stable env (for_break l body).
Proof.
  intros Hb. induction l as [|x l IH]; cbn [for_break].
  - apply stable_ret.
  - apply stable_bind; [apply Hb|]. intros [|]; [exact IH|apply stable_ret].
Qed.

Lemma stable_from_import (modname name : string) : stable env (from_import host modname name).
Proof. unfold from_import. stable_tac. Qed.

Lemma stable_read_text (p : Path) : stable env (read_text host p).
Proof. unfold read_text. stable_tac. Qed.

Lemma stable_first_item (l : list string) : stable env (first_item l).
Proof. unfold first_item. stable_tac. Qed.

End ExampleUsageFacts.

#[local] Hint Resolve stable_from_import stable_read_text stable_first_item : stable.

Ltac stable_tac_x :=
  repeat match goal with
         | |- stable _ (ExampleUsage.for_break _ _) => apply stable_for_break
         | _ => stable_step
         end.

Section ExampleUsageChecks.

Import ExampleUsage.

Context (host : Host).

Local Abbreviation env := (host_env host).

Lemma stable_demonstrate_basic_imports : stable env (demonstrate_basic_imports host).
Proof. unfold demonstrate_basic_imports. stable_tac_x. Qed.

Lemma stable_check_project_structure : stable env (check_project_structure host).
Proof. unfold check_project_structure. stable_tac_x. Qed.

Lemma stable_demonstrate_config_loading : stable env (demonstrate_config_loading host).
Proof. unfold demonstrate_config_loading. stable_tac_x. Qed.

Lemma stable_show_next_steps : stable env show_next_steps.
Proof. unfold show_next_steps. stable_tac_x. Qed.

Lemma returns_show_next_steps : returns show_next_steps.
Proof.
  unfold show_next_steps.
  apply returns_bind; [apply returns_print|]. intros _.
  apply returns_bind; [apply returns_print|]. intros _.
  apply returns_for_each. intros step []. apply returns_print.
Qed.

End ExampleUsageChecks.

(** ** The import demonstration *)

Section ExampleUsageImports.

Import ExampleUsage.

Context (host : Host).

Local Abbreviation env := (host_env host).

Lemma import_component_value (modname name ok : string) (warn : string -> string)
    (s : gset string) :
  value
    (try_except
       (from_import host modname name ;; print ok)
       (fun e =>
          match e with
          | ImportError msg => Some (print (warn msg))
          | _ => None
          end) s) = component_result host modname name s.
Proof.
  rewrite value_try_except, value_bind. unfold component_result.
  destruct (value (from_import host modname name s)) as [[]|[msg| | |msg]]; reflexivity.
Qed.

(** What the demonstration returns: whether [metagpt] imports, unless
    that import or one of the three component imports raises something
    else than an [ImportError]. *)
Lemma demonstrate_basic_imports_value (s : gset string) :
  value (demonstrate_basic_imports host s) =
  match import_result env s "metagpt" with
  | Raise e => Raise e
  | Return false => Return false
  | Return true =>
      match component_result host "metagpt.schema" "Message" s with
      | Raise e => Raise e
      | Return _ =>
          match component_result host "metagpt.config2" "Config" s with
          | Raise e => Raise e
          | Return _ =>
              match component_result host "metagpt.roles.role" "Role" s with
              | Raise e => Raise e
              | Return _ => Return true
              end
          end
      end
  end.
Proof.
  pose proof (stable_from_import host) as Hfrom.
  unfold demonstrate_basic_imports.
  rewrite (stable_value_bind env) by stable_tac_x. cbn [print value].
  rewrite (stable_value_bind env) by stable_tac_x.
  rewrite value_try_except.
  rewrite (stable_value_bind env) by stable_tac_x.
  destruct (import_module_cases env "metagpt" s)
    as [[V R]|[(msg & V & R & _)|(msg & V & R)]]; rewrite V, R; [|reflexivity..].
  rewrite (stable_value_bind env) by stable_tac_x. cbn [print value].
  rewrite (stable_value_bind env) by stable_tac_x.
  rewrite (import_component_value _ _ _ (fun msg => "   ⚠️  metagpt.schema.Message - " +:+ msg)).
  unfold component_result at 1 2.
  destruct (value (from_import host "metagpt.schema" "Message" s)) as [[]|[msg1| | |msg1]];
    try reflexivity;
    (rewrite (stable_value_bind env) by stable_tac_x;
     rewrite (import_component_value _ _ _
                (fun msg => "   ⚠️  metagpt.config2.Config - " +:+ msg));
     unfold component_result at 1 2;
     destruct (value (from_import host "metagpt.config2" "Config" s)) as [[]|[msg2| | |msg2]];
     try reflexivity;
     (rewrite (stable_value_bind env) by stable_tac_x;
      rewrite (import_component_value _ _ _
                 (fun msg => "   ⚠️  metagpt.roles.role.Role - " +:+ msg));
      unfold component_result;
      destruct (value (from_import host "metagpt.roles.role" "Role" s))
        as [[]|[msg3| | |msg3]];
      reflexivity)).
Qed.

Lemma demonstrate_basic_imports_Return (s : gset string) (b : bool) :
  value (demonstrate_basic_imports host s) = Return b ->
  import_result env s "metagpt" = Return b.
Proof.
  rewrite demonstrate_basic_imports_value.
  destruct (import_result env s "metagpt") as [[|]|e]; [|intros H; exact H|discriminate].
  destruct (component_result host "metagpt.schema" "Message" s); [|discriminate].
  destruct (component_result host "metagpt.config2" "Config" s); [|discriminate].
  destruct (component_result host "metagpt.roles.role" "Role" s); [|discriminate].
  intros H. exact H.
Qed.

Lemma demonstrate_basic_imports_failure (s : gset string) :
  import_result env s "metagpt" = Return false ->
  exists msg,
    find_module env "metagpt" = NotFound msg /\
    events (demonstrate_basic_imports host s) =
    [Printed "🧪 Testing basic MetaGPT imports...";
     Printed ("   ❌ Could not import metagpt: " +:+ msg)].
Proof.
  intros R. unfold demonstrate_basic_imports.
  rewrite events_bind. cbn [print value events sys_modules].
  rewrite events_bind, value_try_except, events_try_except, value_bind, events_bind,
    import_module_events.
  destruct (import_module_cases env "metagpt" s)
    as [[V R']|[(msg & V & R' & F)|(msg & V & R')]]; rewrite R in R'; try discriminate R'.
  rewrite V. exists msg. split; [exact F|reflexivity].
Qed.

(** A component whose module and name raise nothing but [ImportError]
    never ends the demonstration. *)
Lemma component_result_returns (modname name : string) (s : gset string) :
  (forall msg, find_module env modname <> Crashes msg) ->
  (forall msg, find_name host modname name <> Crashes msg) ->
  component_result host modname name s = Return tt.
Proof.
  intros Hmod Hname. unfold component_result, from_import.
  rewrite value_bind.
  destruct (import_module_cases env modname s)
    as [[V R]|[(msg & V & R & F)|(msg & V & R)]]; rewrite V.
  - destruct (find_name host modname name) as [|msg|msg] eqn:N; try reflexivity.
    exfalso. apply (Hname msg). reflexivity.
  - reflexivity.
  - exfalso. apply import_result_Raise in R as (_ & msg' & E & F).
    apply (Hmod msg'). exact F.
Qed.

End ExampleUsageImports.



(** A package that imports while two of its components do not: the
    demonstration returns [True] and warns about the two. *)
Example demonstrate_basic_imports_partial :
  value (ExampleUsage.demonstrate_basic_imports ExampleUsage.host_partial modules_at_start) =
    Return true /\
  printed (events (ExampleUsage.demonstrate_basic_imports ExampleUsage.host_partial
                     modules_at_start)) =
    ["🧪 Testing basic MetaGPT imports...";
     "   ✅ metagpt - Core module";
     "   ⚠️  metagpt.schema.Message - No module named 'pydantic'";
     "   ✅ metagpt.config2.Config - Configuration";
     "   ⚠️  metagpt.roles.role.Role - cannot import name 'Role' from 'metagpt.roles.role'"].
Proof. vm_compute. split; reflexivity. Qed.

(** A component whose import raises a [ValueError]: the exception passes
    the [except ImportError] clauses and leaves the demonstration and
    [main], while the MetaGPT check of [verify_setup.py] returns [True]. *)
Example demonstrate_basic_imports_component_crash :
  value (ExampleUsage.demonstrate_basic_imports ExampleUsage.host_component_crashes
           modules_at_start) =
    Raise (Exception "numpy.dtype size changed, may indicate binary incompatibility") /\
  printed (events (ExampleUsage.demonstrate_basic_imports ExampleUsage.host_component_crashes
                     modules_at_start)) =
    ["🧪 Testing basic MetaGPT imports...";
     "   ✅ metagpt - Core module";
     "   ✅ metagpt.schema.Message - Basic schema"] /\
  exit_status (ExampleUsage.main ExampleUsage.host_component_crashes modules_at_start) = 1 /\
  value (check_metagpt (ExampleUsage.host_env ExampleUsage.host_component_crashes)
           modules_at_start) = Return true.
Proof. vm_compute. repeat split; reflexivity. Qed.

(** ** The example's [main] *)

Lemma stable_example_main (host : ExampleUsage.Host) :
  stable (ExampleUsage.host_env host) (ExampleUsage.main host).
Proof.
  pose proof (stable_demonstrate_basic_imports host).
  pose proof (stable_check_project_structure host).
  pose proof (stable_demonstrate_config_loading host).
  pose proof (stable_show_next_steps host).
  unfold ExampleUsage.main. stable_tac_x.
Qed.

(** The value of the example's [main], read off its three parts run on
    their own from the initial state. *)
Lemma example_main_value (host : ExampleUsage.Host) (s : gset string) :
  value (ExampleUsage.main host s) =
  match ExampleUsage.split (ExampleUsage.sys_version host) with
  | [] => Raise (Exception "list index out of range")
  | _ :: _ =>
      match value (ExampleUsage.demonstrate_basic_imports host s) with
      | Raise e => Raise e
      | Return import_success =>
          match value (ExampleUsage.check_project_structure host s) with
          | Raise e => Raise e
          | Return _ =>
              match value (ExampleUsage.demonstrate_config_loading host s) with
              | Raise e => Raise e
              | Return _ => Return (if import_success : bool then 0 else 1)
              end
          end
      end
  end.
Proof.
  pose proof (stable_demonstrate_basic_imports host).
  pose proof (stable_check_project_structure host).
  pose proof (stable_demonstrate_config_loading host).
  pose proof (stable_show_next_steps host).
  unfold ExampleUsage.main.
  rewrite (stable_value_bind (ExampleUsage.host_env host)) by stable_tac_x. cbn [print value].
  rewrite (stable_value_bind (ExampleUsage.host_env host)) by stable_tac_x. cbn [print value].
  rewrite (stable_value_bind (ExampleUsage.host_env host)) by stable_tac_x.
  destruct (ExampleUsage.split (ExampleUsage.sys_version host)) as [|version rest];
    cbn [ExampleUsage.first_item raise ret value]; [reflexivity|].
  rewrite (stable_value_bind (ExampleUsage.host_env host)) by stable_tac_x. cbn [print value].
  rewrite (stable_value_bind (ExampleUsage.host_env host)) by stable_tac_x. cbn [print value].
  rewrite (stable_value_bind (ExampleUsage.host_env host)) by stable_tac_x. cbn [print value].
  rewrite (stable_value_bind (ExampleUsage.host_env host)) by stable_tac_x.
  destruct (value (ExampleUsage.demonstrate_basic_imports host s)) as [import_success|e];
    [|reflexivity].
  rewrite (stable_value_bind (ExampleUsage.host_env host)) by stable_tac_x.
  destruct (value (ExampleUsage.check_project_structure host s)) as [[]|e]; [|reflexivity].
  rewrite (stable_value_bind (ExampleUsage.host_env host)) by stable_tac_x.
  destruct (value (ExampleUsage.demonstrate_config_loading host s)) as [[]|e]; [|reflexivity].
  rewrite (stable_value_bind (ExampleUsage.host_env host)) by stable_tac_x.
  destruct (returns_show_next_steps s) as [[] Hsteps].
  destruct (ExampleUsage.show_next_steps s) as [ev st v] eqn:Eshow.
  cbn [value] in Hsteps. subst v.
  destruct import_success; run_script; rewrite Eshow; reflexivity.
Qed.





(** X14.  [example_usage.py] runs no external command and unloads no
    module. *)
Theorem example_main_footprint (host : ExampleUsage.Host) (s : gset string) :
  spawns (events (ExampleUsage.main host s)) = [] /\
  s ⊆ sys_modules (ExampleUsage.main host s).
Proof.
  split.
  - revert s. change (spawnless (ExampleUsage.main host)).
    unfold ExampleUsage.main, ExampleUsage.first_item, ExampleUsage.demonstrate_basic_imports,
      ExampleUsage.from_import, ExampleUsage.check_project_structure,
      ExampleUsage.demonstrate_config_loading, ExampleUsage.read_text,
      ExampleUsage.show_next_steps.
    spawnless_tac.
  - destruct (stable_example_main host) as [Grow _]. apply Grow.
Qed.

(** ** The configuration demonstration *)

Lemma demonstrate_config_loading_printed (host : ExampleUsage.Host) (s : gset string) :
  let env := ExampleUsage.host_env host in
  let user_path := path_div (path_div (home env) ".metagpt") "config2.yaml" in
  let project_path := path_div ["config"] "config2.yaml" in
  printed (events (ExampleUsage.demonstrate_config_loading host s)) =
  (LF +:+ "⚙️  Testing configuration loading...") ::
  ExampleUsage.path_lines host user_path ++
  if ExampleUsage.readable host user_path then []
  else ExampleUsage.path_lines host project_path.
Proof.
  intros env user_path project_path. subst env user_path project_path.
  unfold ExampleUsage.demonstrate_config_loading, ExampleUsage.config_paths,
    ExampleUsage.path_lines, ExampleUsage.found_lines, ExampleUsage.read_text,
    ExampleUsage.readable, path_exists.
  cbn [ExampleUsage.for_break].
  destruct (fs (ExampleUsage.host_env host)
              (path_div (path_div (home (ExampleUsage.host_env host)) ".metagpt") "config2.yaml"))
    as [[[|c1 content1]|]|];
    destruct (ExampleUsage.read_error host
                (path_div (path_div (home (ExampleUsage.host_env host)) ".metagpt")
                   "config2.yaml")) as [msg1|];
    destruct (fs (ExampleUsage.host_env host) (path_div ["config"] "config2.yaml"))
      as [[[|c2 content2]|]|];
    destruct (ExampleUsage.read_error host (path_div ["config"] "config2.yaml")) as [msg2|];
    reflexivity.
Qed.

(** X15.  When the configuration demonstration returns, it has examined
    the user's path, and the project's path unless the user's path is a
    file it could read: the first file it can read ends the search, read
    or empty, while a missing path, a directory or a file that cannot be
    read (found, and an error reported) lets it go on.  It reports a file
    it read with its length, or as empty. *)
Theorem demonstrate_config_loading_report (host : ExampleUsage.Host) (s : gset string) :
  value (ExampleUsage.demonstrate_config_loading host s) = Return tt ->
  let env := ExampleUsage.host_env host in
  let user_path := path_div (path_div (home env) ".metagpt") "config2.yaml" in
  let project_path := path_div ["config"] "config2.yaml" in
  printed (events (ExampleUsage.demonstrate_config_loading host s)) =
    (LF +:+ "⚙️  Testing configuration loading...") ::
    match fs env user_path with
    | None =>
        ("   ⚠️  Config not found: " +:+ path_str user_path)
        :: ExampleUsage.path_lines host project_path
    | Some Dir =>
        ("   ✅ Config found: " +:+ path_str user_path)
        :: ("   ❌ Error reading config: " +:+ ExampleUsage.open_error host user_path)
        :: ExampleUsage.path_lines host project_path
    | Some (File content) =>
        match ExampleUsage.read_error host user_path with
        | Some msg =>
            ("   ✅ Config found: " +:+ path_str user_path)
            :: ("   ❌ Error reading config: " +:+ msg)
            :: ExampleUsage.path_lines host project_path
        | None =>
            [ "   ✅ Config found: " +:+ path_str user_path;
              if ExampleUsage.str_len content >? 0
              then "   ✅ Config readable (" +:+ str (ExampleUsage.str_len content) +:+ " chars)"
              else "   ⚠️  Config file is empty" ]
        end
    end.
Proof.
  intros _ env user_path project_path.
  pose proof (demonstrate_config_loading_printed host s) as H. cbv zeta in H.
  fold env in H. fold user_path in H. fold project_path in H. rewrite H.
  unfold ExampleUsage.readable. unfold ExampleUsage.path_lines at 1.
  unfold ExampleUsage.found_lines. fold env.
  destruct (fs env user_path) as [[content|]|]; [|reflexivity..].
  destruct (ExampleUsage.read_error host user_path) as [msg|]; reflexivity.
Qed.

(** The user's file cannot be decoded and the project has a file: the
    error is reported and the search goes on. *)
Lemma demonstrate_config_loading_report_witness :
  value (ExampleUsage.demonstrate_config_loading ExampleUsage.host_undecodable
           modules_at_start) = Return tt /\
  printed (events (ExampleUsage.demonstrate_config_loading ExampleUsage.host_undecodable
                     modules_at_start)) =
  [LF +:+ "⚙️  Testing configuration loading...";
   "   ✅ Config found: /home/dev/.metagpt/config2.yaml";
   "   ❌ Error reading config: 'utf-8' codec can't decode byte 0xff in position 0: invalid start byte";
   "   ✅ Config found: config/config2.yaml";
   "   ✅ Config readable (7 chars)"].
Proof.
  split; [vm_compute; reflexivity|].
  rewrite (demonstrate_config_loading_report ExampleUsage.host_undecodable modules_at_start).
  - vm_compute. reflexivity.
  - vm_compute. reflexivity.
Defined.

(** The user's path is a directory and the project has a file. *)
Example demonstrate_config_loading_past_directory :
  printed (events (ExampleUsage.demonstrate_config_loading
                     (ExampleUsage.host_of ExampleUsage.env_config_dir) modules_at_start)) =
  [LF +:+ "⚙️  Testing configuration loading...";
   "   ✅ Config found: /home/dev/.metagpt/config2.yaml";
   "   ❌ Error reading config: [Errno 21] Is a directory: '/home/dev/.metagpt/config2.yaml'";
   "   ✅ Config found: config/config2.yaml";
   "   ✅ Config readable (7 chars)"].
Proof. vm_compute. reflexivity. Qed.

Lemma prefix_append (a b : string) : String.prefix a (a +:+ b) = true.
Proof.
  induction a as [|c a IH]; simpl; [destruct b; reflexivity|].
  destruct (ascii_dec c c) as [_|N]; [exact IH|contradiction].
Qed.

(** X16.  The two scripts agree on whether there is a configuration: in
    an environment in which both the configuration check of
    [verify_setup.py] and the demonstration return, the demonstration
    prints a "Config found" line exactly when the check returns [True].
    They differ on an empty file, which the check accepts in silence and
    the demonstration reports as empty. *)
Theorem config_found_agrees (host : ExampleUsage.Host) (s : gset string) (b : bool) :
  value (check_config_files (ExampleUsage.host_env host) s) = Return b ->
  value (ExampleUsage.demonstrate_config_loading host s) = Return tt ->
  b = existsb (String.prefix "   ✅ Config found: ")
        (printed (events (ExampleUsage.demonstrate_config_loading host s))).
Proof.
  rewrite check_config_files_value, demonstrate_config_loading_printed.
  intros Hb _. apply Return_inj in Hb. subst b.
  unfold config_locations, ExampleUsage.path_lines, ExampleUsage.found_lines,
    ExampleUsage.readable, path_exists.
  cbn [existsb].
  destruct (fs (ExampleUsage.host_env host)
              (path_div (path_div (home (ExampleUsage.host_env host)) ".metagpt") "config2.yaml"))
    as [[[|c1 content1]|]|];
    destruct (ExampleUsage.read_error host
                (path_div (path_div (home (ExampleUsage.host_env host)) ".metagpt")
                   "config2.yaml")) as [msg1|];
    destruct (fs (ExampleUsage.host_env host) (path_div ["config"] "config2.yaml"))
      as [[[|c2 content2]|]|];
    destruct (ExampleUsage.read_error host (path_div ["config"] "config2.yaml")) as [msg2|];
    cbn [existsb app orb]; rewrite ?prefix_append; reflexivity.
Qed.

Lemma config_found_agrees_witness :
  value (check_config_files env_empty_config modules_at_start) = Return true /\
  existsb (String.prefix "   ✅ Config found: ")
    (printed (events (ExampleUsage.demonstrate_config_loading
                        (ExampleUsage.host_of env_empty_config) modules_at_start))) = true.
Proof.
  split; [vm_compute; reflexivity|]. symmetry.
  apply (config_found_agrees (ExampleUsage.host_of env_empty_config) modules_at_start true).
  - vm_compute. reflexivity.
  - vm_compute. reflexivity.
Defined.

(** ** The project structure *)

Lemma for_each_print_events {A : Type} (l : list A) (body : A -> unit -> M unit)
    (line : A -> string) (s : gset string) :
  (forall x u s', body x u s' = print (line x) s') ->
  events (for_each l body tt s) = map (fun x => Printed (line x)) l /\
  sys_modules (for_each l body tt s) = s /\
  value (for_each l body tt s) = Return tt.
Proof.
  intros Hb. induction l as [|x l IH]; cbn [for_each map]; [repeat split; reflexivity|].
  unfold bind. rewrite Hb. cbn [print value events sys_modules].
  destruct IH as (IHe & IHs & IHv). rewrite IHe, IHs, IHv. repeat split; reflexivity.
Qed.

